(** * mjson: the structure check and the deep merge of [src/lib/json-utils.ts]

    A shallow embedding of [validateStructureConsistency],
    [generateCompatibleStructureHash], [mergeJsonFiles] and [deepMerge],
    followed by the properties of the compatibility check and of the merge.

    JavaScript values are a tagged union; objects list their own enumerable
    properties in enumeration order.  Property reads and writes go through
    [Get] and [SetProp], which follow the language: a read of a key that is
    not an own property falls back to [Object.prototype], a write of a new key
    is placed where [for ... in] will later find it. *)

From Stdlib Require Import List String Ascii ZArith NArith Bool Lia.
From Stdlib Require Import Sorted Permutation.
Import ListNotations.

Local Open Scope string_scope.
Local Open Scope bool_scope.

(* ================================================================== *)
(** ** Values *)

(** The six JSON kinds, and the three values that the merge can meet besides
    them: [undefined] (a missing property), a built-in function inherited from
    [Object.prototype], and [Object.prototype] itself (what the [__proto__]
    accessor returns).  The payload of a number is carried along and never
    inspected by the code. *)
#[local] Unset Elimination Schemes.

Inductive JsonValue : Type :=
| JUndefined
| JNull
| JBool (b : bool)
| JNum (n : Z)
| JStr (s : string)
| JArr (elements : list JsonValue)
| JObj (props : list (string * JsonValue))
| JFun (name : string)
| JObjectPrototype.

#[local] Set Elimination Schemes.

Definition Props : Type := list (string * JsonValue).

(** Nested induction: the elements of an array and the values of an object
    satisfy the property. *)
Section JsonValue_induction.
Variable P : JsonValue -> Prop.
Hypothesis Hundef : P JUndefined.
Hypothesis Hnull : P JNull.
Hypothesis Hbool : forall b, P (JBool b).
Hypothesis Hnum : forall n, P (JNum n).
Hypothesis Hstr : forall s, P (JStr s).
Hypothesis Harr : forall l, Forall P l -> P (JArr l).
Hypothesis Hobj : forall ps, Forall (fun kv => P (snd kv)) ps -> P (JObj ps).
Hypothesis Hfun : forall f, P (JFun f).
Hypothesis Hproto : P JObjectPrototype.

Fixpoint JsonValue_nested_ind (v : JsonValue) : P v :=
  match v with
  | JUndefined => Hundef
  | JNull => Hnull
  | JBool b => Hbool b
  | JNum n => Hnum n
  | JStr s => Hstr s
  | JArr l =>
      Harr l ((fix elems (l : list JsonValue) : Forall P l :=
                 match l with
                 | [] => Forall_nil P
                 | x :: l' => Forall_cons x (JsonValue_nested_ind x) (elems l')
                 end) l)
  | JObj ps =>
      Hobj ps ((fix fields (ps : Props) : Forall (fun kv => P (snd kv)) ps :=
                  match ps with
                  | [] => Forall_nil _
                  | kv :: ps' =>
                      Forall_cons kv (JsonValue_nested_ind (snd kv)) (fields ps')
                  end) ps)
  | JFun f => Hfun f
  | JObjectPrototype => Hproto
  end.
End JsonValue_induction.

(** [typeof value]. *)
Definition typeof (v : JsonValue) : string :=
  match v with
  | JUndefined => "undefined"
  | JNull => "object"
  | JBool _ => "boolean"
  | JNum _ => "number"
  | JStr _ => "string"
  | JArr _ => "object"
  | JObj _ => "object"
  | JFun _ => "function"
  | JObjectPrototype => "object"
  end.

(** [Array.isArray(value)]. *)
Definition isArray (v : JsonValue) : bool :=
  match v with JArr _ => true | _ => false end.

(** [value === null]. *)
Definition isNull (v : JsonValue) : bool :=
  match v with JNull => true | _ => false end.

(** [value === null || value === undefined]. *)
Definition isNullish (v : JsonValue) : bool :=
  match v with JNull | JUndefined => true | _ => false end.

(** The elements of an array, as [...value] spreads them. *)
Definition elementsOf (v : JsonValue) : list JsonValue :=
  match v with JArr l => l | _ => [] end.

(** The own enumerable properties of a value, as [{ ...value }] copies them.
    Those of [Object.prototype] are not enumerable. *)
Definition ownProps (v : JsonValue) : Props :=
  match v with JObj ps => ps | _ => [] end.

(** A document is made of the six JSON kinds only. *)
Fixpoint isJson (v : JsonValue) : bool :=
  match v with
  | JNull | JBool _ | JNum _ | JStr _ => true
  | JArr l => forallb isJson l
  | JObj ps => forallb (fun kv => isJson (snd kv)) ps
  | JUndefined | JFun _ | JObjectPrototype => false
  end.

(* ================================================================== *)
(** ** Objects: own properties, the prototype, enumeration order *)

Fixpoint lookup (key : string) (ps : Props) : option JsonValue :=
  match ps with
  | [] => None
  | (k, v) :: ps' => if k =? key then Some v else lookup key ps'
  end.

Definition hasOwn (ps : Props) (key : string) : bool :=
  match lookup key ps with Some _ => true | None => false end.

Definition keysOf (ps : Props) : list string := map fst ps.

(** The function-valued properties of [Object.prototype]. *)
Definition objectPrototypeFunctions : list string :=
  [ "constructor"; "hasOwnProperty"; "isPrototypeOf"; "propertyIsEnumerable";
    "toLocaleString"; "toString"; "valueOf";
    "__defineGetter__"; "__defineSetter__"; "__lookupGetter__"; "__lookupSetter__" ].

(** A read that reaches [Object.prototype]: its functions, the [__proto__]
    accessor (which answers the prototype of the object the read started
    from), and [undefined] for every other key. *)
Definition getFromObjectPrototype (prototypeOfReceiver : JsonValue) (key : string)
  : JsonValue :=
  if existsb (String.eqb key) objectPrototypeFunctions then JFun key
  else if key =? "__proto__" then prototypeOfReceiver
  else JUndefined.

(** [o[key]] for an object [o]: the own property, else the inherited one.
    The prototype of an object literal, of a spread copy and of a parsed
    object is [Object.prototype], whose own prototype is [null].  The merge
    reads properties of objects only. *)
Definition Get (o : JsonValue) (key : string) : JsonValue :=
  match o with
  | JObj ps =>
      match lookup key ps with
      | Some v => v
      | None => getFromObjectPrototype JObjectPrototype key
      end
  | JObjectPrototype => getFromObjectPrototype JNull key
  | _ => JUndefined
  end.

(** Array indices: the canonical decimal strings of 0 .. 2^32 - 2.  Own
    properties are enumerated with the array indices first, in ascending
    order, then the other keys in the order of their creation. *)
Definition digitOf (c : ascii) : option N :=
  let n := N_of_ascii c in
  if (48 <=? n)%N && (n <=? 57)%N then Some (n - 48)%N else None.

Fixpoint decimalValue (acc : N) (s : string) : option N :=
  match s with
  | EmptyString => Some acc
  | String c s' =>
      match digitOf c with
      | Some d => decimalValue (10 * acc + d)%N s'
      | None => None
      end
  end.

Definition arrayIndex (key : string) : option N :=
  match key with
  | EmptyString => None
  | String c rest =>
      if (N_of_ascii c =? 48)%N && negb (rest =? EmptyString) then None
      else match decimalValue 0%N key with
           | Some n => if (n <=? 4294967294)%N then Some n else None
           | None => None
           end
  end.

(** [enumeratedBefore k k']: a new key [k] is enumerated before the existing
    key [k']. *)
Definition enumeratedBefore (k k' : string) : bool :=
  match arrayIndex k, arrayIndex k' with
  | Some n, Some m => (n <? m)%N
  | Some _, None => true
  | None, _ => false
  end.

Fixpoint updateProp (key : string) (v : JsonValue) (ps : Props) : Props :=
  match ps with
  | [] => []
  | (k, w) :: ps' =>
      if k =? key then (k, v) :: ps' else (k, w) :: updateProp key v ps'
  end.

Fixpoint createProp (key : string) (v : JsonValue) (ps : Props) : Props :=
  match ps with
  | [] => [(key, v)]
  | (k, w) :: ps' =>
      if enumeratedBefore key k then (key, v) :: (k, w) :: ps'
      else (k, w) :: createProp key v ps'
  end.

(* ================================================================== *)
(** ** Completions *)

(** The outcome of running a piece of the code: a value, a thrown [TypeError]
    with its message, or [Unmodelled] when the run gives an object a new
    prototype through the [__proto__] setter (reads through such a prototype
    are not described here).  Documents without a key [__proto__] never get
    there: [mergeJsonFiles_modelled]. *)
Inductive Completion (A : Type) : Type :=
| Normal (value : A)
| Throw (message : string)
| Unmodelled.

Arguments Normal {A} value.
Arguments Throw {A} message.
Arguments Unmodelled {A}.

Definition bind {A B : Type} (c : Completion A) (k : A -> Completion B)
  : Completion B :=
  match c with
  | Normal a => k a
  | Throw m => Throw m
  | Unmodelled => Unmodelled
  end.

Notation "x <- c ;; k" := (bind c (fun x => k))
  (at level 61, c at next level, right associativity).

(** [result[key] = v] on a fresh object [result] (prototype
    [Object.prototype]): an own property is overwritten in place; the key
    [__proto__], when not own, reaches the setter of [Object.prototype], which
    ignores primitives and replaces the prototype by an object, a function or
    [null]; any other new key becomes an own property. *)
Definition SetProp (result : Props) (key : string) (v : JsonValue)
  : Completion Props :=
  if hasOwn result key then Normal (updateProp key v result)
  else if key =? "__proto__" then
    match v with
    | JNull | JArr _ | JObj _ | JFun _ => Unmodelled
    | JUndefined | JBool _ | JNum _ | JStr _ | JObjectPrototype => Normal result
    end
  else Normal (createProp key v result).

(** The double quote, and the text V8 gives to the [TypeError] of calling a
    property that is not a function. *)
Definition dq : string := String "034"%char EmptyString.

Definition notAFunction : string := "source.hasOwnProperty is not a function".

(** [source.hasOwnProperty(key)]: the method is looked up on [source] like
    any property, so a document key named [hasOwnProperty] shadows it, and a
    JSON value is not callable.  (No document holds another built-in under
    that key; calling one is not described.) *)
Definition callHasOwnProperty (source : JsonValue) (key : string)
  : Completion bool :=
  match Get source "hasOwnProperty" with
  | JFun f =>
      if f =? "hasOwnProperty" then Normal (hasOwn (ownProps source) key)
      else Unmodelled
  | _ => Throw notAFunction
  end.

(* ================================================================== *)
(** ** deepMerge *)

(** [deepMerge(target, source)].  The loop [for (const key in source)] visits
    the own enumerable properties of [source] in enumeration order (nothing
    enumerable is inherited); [source[key]] is the value listed with [key]. *)
Fixpoint deepMerge (target source : JsonValue) {struct source}
  : Completion JsonValue :=
  if isNullish source then Normal target
  else if isNullish target then Normal source
  else if isArray target && isArray source then
    Normal (JArr (elementsOf target ++ elementsOf source))
  else if (typeof target =? "object") && (typeof source =? "object")
          && negb (isArray target) && negb (isArray source) then
    match source with
    | JObj sprops =>
        (fix forIn (rest : Props) (result : Props) {struct rest}
           : Completion JsonValue :=
           match rest with
           | [] => Normal (JObj result)
           | (key, sv) :: rest' =>
               own <- callHasOwnProperty source key ;;
               if (own : bool) then
                 v <- deepMerge (Get target key) sv ;;
                 result' <- SetProp result key v ;;
                 forIn rest' result'
               else forIn rest' result
           end) sprops (ownProps target)
    | _ => Normal (JObj (ownProps target))
    end
  else Normal source.

(* ================================================================== *)
(** ** Files and results ([src/types/json.ts]) *)

Record JsonFile : Type := {
  id : string;
  name : string;
  content : JsonValue;
  size : Z
}.

Record ValidationResult : Type := {
  isValid : bool;
  error : option string;
  structureHash : option string
}.

(** The field [error] of [MergeResult] is [mergeError] here: the two records
    live in one name space. *)
Record MergeResult : Type := {
  success : bool;
  data : option JsonValue;
  mergeError : option string
}.

Definition valid : ValidationResult :=
  {| isValid := true; error := None; structureHash := None |}.

Definition invalid (message : string) : ValidationResult :=
  {| isValid := false; error := Some message; structureHash := None |}.

(* ================================================================== *)
(** ** The compatible-structure hash *)

(** [JSON.stringify] of a string without characters to escape, and of an
    array of two such strings. *)
Definition stringifyString (s : string) : string := dq ++ s ++ dq.

Definition stringifyPair (a b : string) : string :=
  "[" ++ stringifyString a ++ "," ++ stringifyString b ++ "]".

Definition generateCompatibleStructureHash (obj : JsonValue) : string :=
  if isArray obj then stringifyPair "array" "flexible-object"
  else if (typeof obj =? "object") && negb (isNull obj) then
    stringifyPair "object" "flexible-properties"
  else stringifyString (typeof obj).

(* ================================================================== *)
(** ** validateStructureConsistency *)

Definition rootTypeError (file file0 : JsonFile) : string :=
  "File " ++ dq ++ name file ++ dq ++ " has different root type than "
  ++ dq ++ name file0 ++ dq ++ " (array vs object)".

Definition arrayElementError (file file0 : JsonFile) : string :=
  "File " ++ dq ++ name file ++ dq
  ++ " has incompatible array element structure than "
  ++ dq ++ name file0 ++ dq.

Definition objectStructureError (file file0 : JsonFile) : string :=
  "File " ++ dq ++ name file ++ dq
  ++ " has incompatible object structure than "
  ++ dq ++ name file0 ++ dq.

(** The truth value of a [string | null]. *)
Definition truthy (h : option string) : bool :=
  match h with
  | Some s => negb (s =? EmptyString)
  | None => false
  end.

Definition sameHash (a b : option string) : bool :=
  match a, b with
  | Some x, Some y => x =? y
  | None, None => true
  | _, _ => false
  end.

(** The first loop: files 1, 2, ... against the root type of file 0. *)
Fixpoint checkRootTypes (file0 : JsonFile) (isFirstArray : bool)
    (rest : list JsonFile) : option ValidationResult :=
  match rest with
  | [] => None
  | file :: rest' =>
      let isCurrentArray := isArray (content file) in
      if negb (Bool.eqb isFirstArray isCurrentArray) then
        Some (invalid (rootTypeError file file0))
      else checkRootTypes file0 isFirstArray rest'
  end.

(** The entry of [compatibleStructures] for a file, array branch. *)
Definition arrayElementHash (file : JsonFile) : option string :=
  match content file with
  | JArr [] => None
  | JArr (first :: _) => Some (generateCompatibleStructureHash first)
  | other => Some (generateCompatibleStructureHash other)
  end.

(** The second loop, array branch. *)
Fixpoint checkArrayElements (file0 : JsonFile) (baseStructure : option string)
    (rest : list JsonFile) : option ValidationResult :=
  match rest with
  | [] => None
  | file :: rest' =>
      let current := arrayElementHash file in
      if truthy current && truthy baseStructure
         && negb (sameHash current baseStructure) then
        Some (invalid (arrayElementError file file0))
      else checkArrayElements file0 baseStructure rest'
  end.

(** The second loop, object branch. *)
Fixpoint checkObjects (file0 : JsonFile) (baseStructure : string)
    (rest : list JsonFile) : option ValidationResult :=
  match rest with
  | [] => None
  | file :: rest' =>
      if negb (generateCompatibleStructureHash (content file) =? baseStructure) then
        Some (invalid (objectStructureError file file0))
      else checkObjects file0 baseStructure rest'
  end.

Definition validateStructureConsistency (files : list JsonFile)
  : ValidationResult :=
  match files with
  | [] => invalid "No files to validate"
  | [_] => valid
  | file0 :: rest =>
      let isFirstArray := isArray (content file0) in
      match checkRootTypes file0 isFirstArray rest with
      | Some failure => failure
      | None =>
          if isFirstArray then
            match checkArrayElements file0 (arrayElementHash file0) rest with
            | Some failure => failure
            | None => valid
            end
          else
            match checkObjects file0
                    (generateCompatibleStructureHash (content file0)) rest with
            | Some failure => failure
            | None => valid
            end
      end
  end.

(* ================================================================== *)
(** ** mergeJsonFiles *)

Definition failure (message : option string) : MergeResult :=
  {| success := false; data := None; mergeError := message |}.

Definition merged (value : JsonValue) : MergeResult :=
  {| success := true; data := Some value; mergeError := None |}.

(** [files.reduce((acc, file) => deepMerge(acc, file.content), seed)]. *)
Fixpoint reduceMerge (acc : JsonValue) (files : list JsonFile)
  : Completion JsonValue :=
  match files with
  | [] => Normal acc
  | file :: files' =>
      acc' <- deepMerge acc (content file) ;;
      reduceMerge acc' files'
  end.

(** The [try] ... [catch]: a thrown error becomes a failed result carrying
    its message. *)
Definition mergeJsonFiles (files : list JsonFile) : Completion MergeResult :=
  match files with
  | [] => Normal (failure (Some "No files to merge"))
  | file0 :: _ =>
      let structureValidation := validateStructureConsistency files in
      if negb (isValid structureValidation) then
        Normal (failure (error structureValidation))
      else
        let isArrayType := isArray (content file0) in
        match reduceMerge (if isArrayType then JArr [] else JObj []) files with
        | Normal value => Normal (merged value)
        | Throw message => Normal (failure (Some message))
        | Unmodelled => Unmodelled
        end
  end.

(* ================================================================== *)
(** ** Notions used to state the properties *)

(** The fingerprint as the specification words it: a bare kind name,
    with a kind of its own for [null]. *)
Definition fingerprintSpec (v : JsonValue) : string :=
  match v with
  | JArr _ => "array"
  | JObj _ => "object"
  | JNull => "null"
  | JBool _ => "boolean"
  | JNum _ => "number"
  | JStr _ => "string"
  | JUndefined => "undefined"
  | JFun _ => "function"
  | JObjectPrototype => "object"
  end.

Definition file (n : string) (c : JsonValue) : JsonFile :=
  {| id := n; name := n; content := c; size := 0 |}.

(** The loop of [deepMerge] over the properties [rest] of [source] that are
    still to visit, [result] being the object built so far. *)
Definition mergeProps (target source : JsonValue)
  : Props -> Props -> Completion JsonValue :=
  fix forIn (rest : Props) (result : Props) {struct rest} :=
    match rest with
    | [] => Normal (JObj result)
    | (key, sv) :: rest' =>
        own <- callHasOwnProperty source key ;;
        if (own : bool) then
          v <- deepMerge (Get target key) sv ;;
          result' <- SetProp result key v ;;
          forIn rest' result'
        else forIn rest' result
    end.

(** No Map reachable through Maps has a key [hasOwnProperty] (it would shadow
    the method the loop calls) or [__proto__] (it would reach the prototype
    accessor).  Arrays are never merged element by element, so their contents
    do not matter. *)
Fixpoint mergeSafe (v : JsonValue) : bool :=
  match v with
  | JObj ps =>
      negb (hasOwn ps "hasOwnProperty") && negb (hasOwn ps "__proto__")
      && forallb (fun kv => mergeSafe (snd kv)) ps
  | _ => true
  end.

(** No Map reachable through Maps has a key [__proto__]. *)
Fixpoint noProtoKey (v : JsonValue) : bool :=
  match v with
  | JObj ps =>
      negb (hasOwn ps "__proto__") && forallb (fun kv => noProtoKey (snd kv)) ps
  | _ => true
  end.

(** The properties are listed the way the engine enumerates them: no key
    would have been enumerated before one listed earlier. *)
Fixpoint inEnumerationOrder (ps : Props) : bool :=
  match ps with
  | [] => true
  | (k, _) :: ps' =>
      forallb (fun kv => negb (enumeratedBefore (fst kv) k)) ps'
      && inEnumerationOrder ps'
  end.

(** The values that the documents hold under [key], in upload order. *)
Definition valuesOf (key : string) (files : list JsonFile) : list JsonValue :=
  flat_map (fun f => match lookup key (ownProps (content f)) with
                     | Some v => [v]
                     | None => []
                     end) files.

(** The values [vs] merged one after the other into [acc]. *)
Fixpoint mergeValues (acc : JsonValue) (vs : list JsonValue)
  : Completion JsonValue :=
  match vs with
  | [] => Normal acc
  | v :: vs' => acc' <- deepMerge acc v ;; mergeValues acc' vs'
  end.

(** A Boolean, a Number or a String. *)
Definition isValueScalar (v : JsonValue) : bool :=
  match v with JBool _ | JNum _ | JStr _ => true | _ => false end.

(** A Map root fit for the merge: unique keys, merge-safe. *)
Definition mergeableMap (f : JsonFile) : Prop :=
  exists ps, content f = JObj ps
             /\ NoDup (keysOf ps)
             /\ mergeSafe (JObj ps) = true.

(** Merging the value a document holds under a key, if it holds one. *)
Definition mergeInto (acc : JsonValue) (o : option JsonValue)
  : Completion JsonValue :=
  match o with
  | Some sv => deepMerge acc sv
  | None => Normal acc
  end.

(* ================================================================== *)
(** ** The strict structure hash *)

(** What [getStructure] builds: a name (['nullable'], ['empty'], a [typeof]
    name), the pair [['array', element]], or the pair
    [['object', [[key, structure], ...]]]. *)
#[local] Unset Elimination Schemes.

Inductive Structure : Type :=
| SName (name : string)
| SArray (element : Structure)
| SObject (properties : list (string * Structure)).

#[local] Set Elimination Schemes.

Section Structure_induction.
Variable P : Structure -> Prop.
Hypothesis Hname : forall n, P (SName n).
Hypothesis Harray : forall e, P e -> P (SArray e).
Hypothesis Hobject :
  forall ps, Forall (fun kv => P (snd kv)) ps -> P (SObject ps).

Fixpoint Structure_nested_ind (s : Structure) : P s :=
  match s with
  | SName n => Hname n
  | SArray e => Harray e (Structure_nested_ind e)
  | SObject ps =>
      Hobject ps ((fix fields (ps : list (string * Structure))
                     : Forall (fun kv => P (snd kv)) ps :=
                     match ps with
                     | [] => Forall_nil _
                     | kv :: ps' =>
                         Forall_cons kv (Structure_nested_ind (snd kv)) (fields ps')
                     end) ps)
  end.
End Structure_induction.

(** [keys.sort()]: the default order compares strings code unit by code
    unit.  Equal strings are the same value, so the sorted list does not
    depend on the algorithm; insertion is used here. *)
Fixpoint insertKey (key : string) (sorted : list string) : list string :=
  match sorted with
  | [] => [key]
  | k :: sorted' =>
      if key <=? k then key :: sorted else k :: insertKey key sorted'
  end.

Fixpoint sortKeys (keys : list string) : list string :=
  match keys with
  | [] => []
  | key :: keys' => insertKey key (sortKeys keys')
  end.

(** [getStructure(value[key])], read from the structures of the values of
    [value] listed with their keys ([key] is one of [Object.keys(value)]). *)
Fixpoint structureAt (key : string) (structures : list (string * Structure))
  : Structure :=
  match structures with
  | [] => SName "undefined"
  | (k, s) :: structures' => if k =? key then s else structureAt key structures'
  end.

(** The inner function [getStructure] of [generateStructureHash]. *)
Fixpoint getStructure (value : JsonValue) : Structure :=
  if isNull value then SName "nullable"
  else if isArray value then
    SArray (match value with
            | JArr (first :: _) => getStructure first
            | _ => SName "empty"
            end)
  else if typeof value =? "object" then
    SObject (match value with
             | JObj ps =>
                 let structures :=
                   map (fun kv => (fst kv, getStructure (snd kv))) ps in
                 map (fun key => (key, structureAt key structures))
                     (sortKeys (keysOf ps))
             | _ => []
             end)
  else SName (typeof value).

Definition isNameOf (names : list string) (s : Structure) : bool :=
  match s with
  | SName n => existsb (String.eqb n) names
  | _ => false
  end.

Definition isObjectStructure (s : Structure) : bool :=
  match s with SObject _ => true | _ => false end.

(** The inner function [normalizeStructure]. *)
Fixpoint normalizeStructure (structure : Structure) : Structure :=
  match structure with
  | SObject properties =>
      SObject
        (map (fun kv =>
                let normalized := normalizeStructure (snd kv) in
                if isNameOf ["nullable"] normalized then
                  (fst kv, SName "nullable-field")
                else if isObjectStructure normalized then
                  (fst kv, SName "nullable-field")
                else if isNameOf ["string"; "number"; "boolean"] normalized then
                  (fst kv, SName "nullable-field")
                else (fst kv, normalized))
             properties)
  | SArray element => SArray (normalizeStructure element)
  | SName _ => structure
  end.

(** [JSON.stringify] of a string: the two-character escapes, [\u00xx] for
    the other control characters, every other code unit as it is. *)
Definition backslash : string := String "092"%char EmptyString.

Definition hexDigit (n : N) : string :=
  String (ascii_of_N (if (n <? 10)%N then 48 + n else 87 + n)) EmptyString.

Definition escapeChar (c : ascii) : string :=
  let n := N_of_ascii c in
  if (n =? 8)%N then backslash ++ "b"
  else if (n =? 9)%N then backslash ++ "t"
  else if (n =? 10)%N then backslash ++ "n"
  else if (n =? 12)%N then backslash ++ "f"
  else if (n =? 13)%N then backslash ++ "r"
  else if (n =? 34)%N then backslash ++ dq
  else if (n =? 92)%N then backslash ++ backslash
  else if (n <? 32)%N then
    backslash ++ "u00" ++ hexDigit (n / 16) ++ hexDigit (n mod 16)
  else String c EmptyString.

Fixpoint escapeString (s : string) : string :=
  match s with
  | EmptyString => EmptyString
  | String c s' => escapeChar c ++ escapeString s'
  end.

Definition quoteJSONString (s : string) : string :=
  dq ++ escapeString s ++ dq.

(** The elements of an array joined by commas. *)
Fixpoint joinElements (elements : list string) : string :=
  match elements with
  | [] => EmptyString
  | [e] => e
  | e :: elements' => e ++ "," ++ joinElements elements'
  end.

(** [JSON.stringify] of a structure. *)
Fixpoint stringifyStructure (s : Structure) : string :=
  match s with
  | SName n => quoteJSONString n
  | SArray e =>
      "[" ++ quoteJSONString "array" ++ "," ++ stringifyStructure e ++ "]"
  | SObject ps =>
      "[" ++ quoteJSONString "object" ++ ",["
      ++ joinElements
           (map (fun kv => "[" ++ quoteJSONString (fst kv) ++ ","
                           ++ stringifyStructure (snd kv) ++ "]") ps)
      ++ "]]"
  end.

Definition generateStructureHash (obj : JsonValue) : string :=
  let rawStructure := getStructure obj in
  let normalizedStructure := normalizeStructure rawStructure in
  stringifyStructure normalizedStructure.

(* ================================================================== *)
(** ** validateJsonString *)

(** [JSON.parse] either returns a value or throws a [SyntaxError]. *)
Inductive ParseOutcome : Type :=
| Parsed (value : JsonValue)
| SyntaxError (message : string).

Section Loader.

(** The parser of the engine. *)
Variable JSON_parse : string -> ParseOutcome.

Definition validateJsonString (jsonString : string) : ValidationResult :=
  match JSON_parse jsonString with
  | Parsed parsed =>
      if negb (typeof parsed =? "object") || isNull parsed then
        {| isValid := false;
           error := Some "JSON must be an object or array at root level";
           structureHash := None |}
      else
        {| isValid := true;
           error := None;
           structureHash := Some (generateStructureHash parsed) |}
  | SyntaxError message =>
      {| isValid := false; error := Some message; structureHash := None |}
  end.

End Loader.

(* ================================================================== *)
(** ** The merger component ([JsonMerger]) *)

(** [text || fallback] for an optional string. *)
Definition orElse (text : option string) (fallback : string) : string :=
  if truthy text then match text with Some s => s | None => fallback end
  else fallback.

(** The memoised [structureValidation]. *)
Definition mergerStructureValidation (files : list JsonFile) : ValidationResult :=
  match files with
  | [] => invalid "No files uploaded"
  | _ => validateStructureConsistency files
  end.

(** The memoised [mergeResult]: [null] unless the files are valid. *)
Definition mergerMergeResult (files : list JsonFile)
  : Completion (option MergeResult) :=
  if negb (isValid (mergerStructureValidation files))
     || (List.length files =? 0)%nat
  then Normal None
  else result <- mergeJsonFiles files ;; Normal (Some result).

(** What the effect hands to [onMergeResult], if anything. *)
Definition mergerNotification (files : list JsonFile)
  : Completion (option MergeResult) :=
  mergeResult <- mergerMergeResult files ;;
  match mergeResult with
  | Some result => Normal (Some result)
  | None =>
      if (0 <? List.length files)%nat
         && negb (isValid (mergerStructureValidation files))
      then Normal (Some (failure (Some (orElse
                      (error (mergerStructureValidation files))
                      "Cannot merge files"))))
      else Normal None
  end.

(* ================================================================== *)
(** ** Further notions used to state the properties *)

(** The 256 code units of the strings modelled here. *)
Definition allChars : list ascii := map ascii_of_nat (seq 0 256).

(** [a] is a prefix of [b]. *)
Fixpoint isPrefix (a b : string) : bool :=
  match a, b with
  | EmptyString, _ => true
  | String x a', String y b' => Ascii.eqb x y && isPrefix a' b'
  | String _ _, EmptyString => false
  end.

(** The escape of a code unit is not empty and does not start with a double
    quote. *)
Definition escapeHeadOk (c : ascii) : bool :=
  match escapeChar c with
  | String h _ => negb (Ascii.eqb h "034"%char)
  | EmptyString => false
  end.

(** The entry of a property in the text of an object structure. *)
Definition stringifyEntry (kv : string * Structure) : string :=
  "[" ++ quoteJSONString (fst kv) ++ "," ++ stringifyStructure (snd kv) ++ "]".

(** The order of [sort()] on keys. *)
Definition keyLe (a b : string) : Prop := (a <=? b) = true.

(** The kind of a value, as [Array.isArray], [=== null] and [typeof] tell
    them apart. *)
Inductive Kind : Type :=
| KUndefined | KNull | KBoolean | KNumber | KString | KList | KMap | KFunction.

Definition kindOf (v : JsonValue) : Kind :=
  match v with
  | JUndefined => KUndefined
  | JNull => KNull
  | JBool _ => KBoolean
  | JNum _ => KNumber
  | JStr _ => KString
  | JArr _ => KList
  | JObj _ => KMap
  | JFun _ => KFunction
  | JObjectPrototype => KMap
  end.

Definition kindOf_eq_dec (a b : Kind) : {a = b} + {a <> b}.
Proof. decide equality. Defined.

(** The representative element of a List root. *)
Definition firstElement (f : JsonFile) : option JsonValue :=
  match content f with
  | JArr (first :: _) => Some first
  | _ => None
  end.

(** The contribution of a property value to the strict hash of a Map: an
    array keeps its structure, anything else is a nullable field. *)
Definition fieldStructure (v : JsonValue) : Structure :=
  if isArray v then normalizeStructure (getStructure v)
  else SName "nullable-field".

(** The contribution of the key [key] of a Map to its strict hash. *)
Definition fieldStructureAt (key : string) (ps : Props) : Structure :=
  match lookup key ps with
  | Some v => fieldStructure v
  | None => SName "undefined"
  end.

(* ================================================================== *)
(** * Properties of the compatibility check *)

Section Checker.

Lemma stringifyPair_not_stringifyString (a b s : string) :
  stringifyPair a b <> stringifyString s.
Proof. unfold stringifyPair, stringifyString, dq; simpl; discriminate. Qed.

Lemma hash_of_array (l : list JsonValue) :
  generateCompatibleStructureHash (JArr l)
  = stringifyPair "array" "flexible-object".
Proof. reflexivity. Qed.

Lemma hash_of_object (ps : Props) :
  generateCompatibleStructureHash (JObj ps)
  = stringifyPair "object" "flexible-properties".
Proof. reflexivity. Qed.

(** Files that agree with file 0 on [Array.isArray] pass the first loop. *)
Lemma checkRootTypes_agree (file0 : JsonFile) (b : bool) (rest : list JsonFile) :
  Forall (fun f => isArray (content f) = b) rest ->
  checkRootTypes file0 b rest = None.
Proof.
  induction 1 as [|f rest Hf _ IH]; simpl; [reflexivity|].
  rewrite Hf, Bool.eqb_reflx. exact IH.
Qed.

(** The first loop stops at the first file that disagrees. *)
Lemma checkRootTypes_first (file0 : JsonFile) (b : bool) :
  forall (rest : list JsonFile) (i : nat) (file : JsonFile),
    nth_error rest i = Some file ->
    isArray (content file) <> b ->
    (forall j fj, (j < i)%nat -> nth_error rest j = Some fj ->
                  isArray (content fj) = b) ->
    checkRootTypes file0 b rest = Some (invalid (rootTypeError file file0)).
Proof.
  induction rest as [|f rest IH]; intros i file Hi Hne Hbefore.
  - destruct i; discriminate.
  - destruct i as [|i]; simpl in *.
    + injection Hi as ->.
      destruct (Bool.eqb b (isArray (content file))) eqn:E; [|reflexivity].
      apply Bool.eqb_prop in E. congruence.
    + rewrite (Hbefore 0%nat f) by (auto; lia).
      rewrite Bool.eqb_reflx. simpl.
      apply (IH i); auto.
      intros j fj Hj Hnth. apply (Hbefore (S j) fj); [lia | exact Hnth].
Qed.

(** With an empty base array there is no base structure, and the second
    loop of the array branch compares nothing. *)
Lemma checkArrayElements_no_base (file0 : JsonFile) (rest : list JsonFile) :
  checkArrayElements file0 None rest = None.
Proof.
  induction rest as [|f rest IH]; simpl; [reflexivity|].
  rewrite andb_false_r. exact IH.
Qed.

Lemma checkObjects_all_objects (file0 : JsonFile) (rest : list JsonFile) :
  Forall (fun f => exists ps, content f = JObj ps) rest ->
  checkObjects file0 (stringifyPair "object" "flexible-properties") rest = None.
Proof.
  induction 1 as [|f rest [ps Hf] _ IH]; simpl; [reflexivity|].
  rewrite Hf, hash_of_object, String.eqb_refl. exact IH.
Qed.

(** Object roots always pass the check. *)
Lemma validate_object_roots (files : list JsonFile) :
  files <> [] ->
  Forall (fun f => exists ps, content f = JObj ps) files ->
  validateStructureConsistency files = valid.
Proof.
  intros Hne Hall. destruct files as [|file0 rest]; [congruence|].
  inversion Hall as [|? ? [ps0 H0] Hrest]; subst.
  destruct rest as [|file1 rest]; [reflexivity|].
  unfold validateStructureConsistency. rewrite H0. cbn [isArray].
  rewrite checkRootTypes_agree.
  - rewrite hash_of_object, checkObjects_all_objects by assumption. reflexivity.
  - eapply Forall_impl; [|exact Hrest].
    intros f [ps Hf]. rewrite Hf. reflexivity.
Qed.

End Checker.

(** C3, as stated, fails at [null]: its fingerprint is the quoted [typeof]
    name ["object"], neither the word [null] nor its JSON text. *)
Lemma fingerprint_of_null_is_typeof_object :
  generateCompatibleStructureHash JNull = stringifyString "object"
  /\ generateCompatibleStructureHash JNull <> fingerprintSpec JNull
  /\ generateCompatibleStructureHash JNull <> stringifyString (fingerprintSpec JNull).
Proof. repeat split; discriminate. Qed.

(** C3 (amended).  The fingerprint is the JSON text of the pair
    [array, flexible-object] for a List, of the pair
    [object, flexible-properties] for a Map, and of the [typeof] name for a
    scalar, which for Null is [object]; the fingerprint of Null still differs
    from that of every Map, and a List root starting with null is rejected
    against a List root starting with a Map. *)
Theorem fingerprint_by_kind :
  (forall l, generateCompatibleStructureHash (JArr l)
             = stringifyPair "array" "flexible-object")
  /\ (forall ps, generateCompatibleStructureHash (JObj ps)
                 = stringifyPair "object" "flexible-properties")
  /\ generateCompatibleStructureHash JNull = stringifyString "object"
  /\ (forall b, generateCompatibleStructureHash (JBool b) = stringifyString "boolean")
  /\ (forall n, generateCompatibleStructureHash (JNum n) = stringifyString "number")
  /\ (forall s, generateCompatibleStructureHash (JStr s) = stringifyString "string")
  /\ (forall ps, generateCompatibleStructureHash JNull
                 <> generateCompatibleStructureHash (JObj ps))
  /\ (forall f0 f1 l0 ps l1,
         content f0 = JArr (JNull :: l0) ->
         content f1 = JArr (JObj ps :: l1) ->
         validateStructureConsistency [f0; f1] = invalid (arrayElementError f1 f0)).
Proof.
  repeat split; try reflexivity.
  - intros ps. rewrite hash_of_object.
    intros H. symmetry in H. revert H. apply stringifyPair_not_stringifyString.
  - intros f0 f1 l0 ps l1 H0 H1.
    unfold validateStructureConsistency, checkRootTypes, checkArrayElements,
      arrayElementHash.
    rewrite H0, H1. reflexivity.
Qed.

Lemma fingerprint_by_kind_witness :
  generateCompatibleStructureHash JNull
  <> generateCompatibleStructureHash (JObj [("a", JNum 1)])
  /\ validateStructureConsistency
       [file "a.json" (JArr [JNull]); file "b.json" (JArr [JObj [("a", JNum 1)]])]
     = invalid (arrayElementError (file "b.json" (JArr [JObj [("a", JNum 1)]]))
                                  (file "a.json" (JArr [JNull]))).
Proof.
  destruct fingerprint_by_kind as (_ & _ & _ & _ & _ & _ & Hne & Hlist).
  split.
  - apply Hne.
  - apply (Hlist _ _ [] [("a", JNum 1)] []); reflexivity.
Defined.

(** C6.  A non-empty sequence of documents whose roots are all Maps passes
    the check, whatever keys and nested shapes the Maps hold. *)
Theorem map_roots_always_compatible (files : list JsonFile) :
  files <> [] ->
  Forall (fun f => exists ps, content f = JObj ps) files ->
  validateStructureConsistency files = valid.
Proof. apply validate_object_roots. Qed.

Lemma map_roots_always_compatible_witness :
  validateStructureConsistency
    [file "a.json" (JObj [("a", JNum 1)]);
     file "b.json" (JObj [("b", JArr [JNull]); ("c", JObj [])]);
     file "c.json" (JObj [])]
  = valid.
Proof.
  apply map_roots_always_compatible.
  - discriminate.
  - repeat constructor; eexists; reflexivity.
Defined.

(** C8.  When some document's root kind (List against Map) differs from
    document 0's, the check fails with the one reason that names the first
    such document in sequence order, document 0, and "array vs object". *)
Theorem root_kind_mismatch_reported
    (files : list JsonFile) (file0 filei : JsonFile) (i : nat) :
  nth_error files 0 = Some file0 ->
  nth_error files i = Some filei ->
  isArray (content filei) <> isArray (content file0) ->
  (forall j fj, (0 < j < i)%nat -> nth_error files j = Some fj ->
                isArray (content fj) = isArray (content file0)) ->
  validateStructureConsistency files
  = {| isValid := false;
       error := Some ("File " ++ dq ++ name filei ++ dq
                      ++ " has different root type than "
                      ++ dq ++ name file0 ++ dq ++ " (array vs object)");
       structureHash := None |}.
Proof.
  intros H0 Hi Hne Hbefore.
  destruct files as [|f0 rest]; [discriminate|].
  simpl in H0. injection H0 as ->.
  destruct i as [|i]; [simpl in Hi; injection Hi as ->; congruence|].
  simpl in Hi.
  assert (Hloop : checkRootTypes file0 (isArray (content file0)) rest
                  = Some (invalid (rootTypeError filei file0))).
  { apply (checkRootTypes_first _ _ rest i); auto.
    intros j fj Hj Hnth. apply (Hbefore (S j) fj); [lia | exact Hnth]. }
  destruct rest as [|f1 rest]; [destruct i; discriminate|].
  unfold validateStructureConsistency. rewrite Hloop. reflexivity.
Qed.

Lemma root_kind_mismatch_reported_witness :
  validateStructureConsistency
    [file "a.json" (JArr [JNum 1; JNum 2; JNum 3]);
     file "b.json" (JArr []);
     file "c.json" (JObj [("x", JNum 1)]);
     file "d.json" (JObj [])]
  = invalid ("File " ++ dq ++ "c.json" ++ dq ++ " has different root type than "
             ++ dq ++ "a.json" ++ dq ++ " (array vs object)").
Proof.
  apply (root_kind_mismatch_reported _
           (file "a.json" (JArr [JNum 1; JNum 2; JNum 3]))
           (file "c.json" (JObj [("x", JNum 1)])) 2).
  - reflexivity.
  - reflexivity.
  - simpl. discriminate.
  - intros j fj Hj Hnth.
    assert (j = 1)%nat as -> by lia.
    simpl in Hnth. injection Hnth as <-. reflexivity.
Defined.

(** C10.  When document 0's root is the empty List and every root is a List,
    the check passes: each later fingerprint is compared with the base
    document's only, and the empty base has none. *)
Theorem empty_base_list_always_compatible
    (file0 : JsonFile) (rest : list JsonFile) :
  content file0 = JArr [] ->
  Forall (fun f => exists l, content f = JArr l) rest ->
  validateStructureConsistency (file0 :: rest) = valid.
Proof.
  intros H0 Hall.
  destruct rest as [|file1 rest]; [reflexivity|].
  unfold validateStructureConsistency. rewrite H0. cbn [isArray].
  rewrite checkRootTypes_agree.
  - unfold arrayElementHash at 1. rewrite H0.
    rewrite checkArrayElements_no_base. reflexivity.
  - eapply Forall_impl; [|exact Hall].
    intros f [l Hf]. rewrite Hf. reflexivity.
Qed.

Lemma empty_base_list_always_compatible_witness :
  validateStructureConsistency
    [file "a.json" (JArr []);
     file "b.json" (JArr [JNum 1]);
     file "c.json" (JArr [JObj [("k", JStr "v")]])]
  = valid
  /\ arrayElementHash (file "b.json" (JArr [JNum 1]))
     <> arrayElementHash (file "c.json" (JArr [JObj [("k", JStr "v")]])).
Proof.
  split.
  - apply empty_base_list_always_compatible.
    + reflexivity.
    + repeat constructor; eexists; reflexivity.
  - discriminate.
Defined.

(* ================================================================== *)
(** * Properties of the merge *)

Section OwnProperties.

Lemma lookup_In (k : string) (v : JsonValue) (ps : Props) :
  In (k, v) ps -> hasOwn ps k = true.
Proof.
  unfold hasOwn. induction ps as [|[k' w] ps IH]; simpl; [tauto|].
  intros [H|H].
  - injection H as -> ->. rewrite String.eqb_refl. reflexivity.
  - destruct (k' =? k); [reflexivity | auto].
Qed.

Lemma lookup_not_key (k : string) (ps : Props) :
  ~ In k (keysOf ps) -> lookup k ps = None.
Proof.
  induction ps as [|[k' w] ps IH]; simpl; [reflexivity|].
  intros H. destruct (String.eqb_spec k' k) as [->|_]; [tauto | auto].
Qed.

Lemma lookup_updateProp (key : string) (v : JsonValue) (ps : Props) (k : string) :
  hasOwn ps key = true ->
  lookup k (updateProp key v ps) = if key =? k then Some v else lookup k ps.
Proof.
  unfold hasOwn. induction ps as [|[k' w] ps IH]; simpl; [discriminate|].
  intros H. destruct (String.eqb_spec k' key) as [->|Hne]; simpl.
  - destruct (key =? k); reflexivity.
  - rewrite (IH H).
    destruct (String.eqb_spec k' k) as [->|_]; [|reflexivity].
    destruct (String.eqb_spec key k) as [->|_]; [congruence | reflexivity].
Qed.

Lemma lookup_createProp (key : string) (v : JsonValue) (ps : Props) (k : string) :
  hasOwn ps key = false ->
  lookup k (createProp key v ps) = if key =? k then Some v else lookup k ps.
Proof.
  unfold hasOwn. induction ps as [|[k' w] ps IH]; simpl; [reflexivity|].
  destruct (String.eqb_spec k' key) as [->|Hne]; [discriminate|].
  intros H. destruct (enumeratedBefore key k'); simpl.
  - reflexivity.
  - rewrite (IH H).
    destruct (String.eqb_spec k' k) as [->|_]; [|reflexivity].
    destruct (String.eqb_spec key k) as [->|_]; [congruence | reflexivity].
Qed.

(** A new key that nothing listed would follow is appended. *)
Lemma createProp_last (key : string) (v : JsonValue) (ps : Props) :
  forallb (fun kv => negb (enumeratedBefore key (fst kv))) ps = true ->
  createProp key v ps = (ps ++ [(key, v)])%list.
Proof.
  induction ps as [|[k' w] ps IH]; simpl; [reflexivity|].
  intros H. apply andb_true_iff in H as [H1 H2].
  apply negb_true_iff in H1. rewrite H1, (IH H2). reflexivity.
Qed.

(** Writing any key but [__proto__] completes, and changes that key only. *)
Lemma SetProp_normal (result : Props) (key : string) (v : JsonValue) :
  key <> "__proto__" ->
  exists r, SetProp result key v = Normal r
            /\ forall k, lookup k r = if key =? k then Some v else lookup k result.
Proof.
  intros Hkey. unfold SetProp.
  destruct (hasOwn result key) eqn:Hown.
  - eexists; split; [reflexivity|]. intros k. apply lookup_updateProp, Hown.
  - destruct (String.eqb_spec key "__proto__") as [->|_]; [congruence|].
    eexists; split; [reflexivity|]. intros k. apply lookup_createProp, Hown.
Qed.

Lemma callHasOwnProperty_unshadowed (sps : Props) (key : string) :
  hasOwn sps "hasOwnProperty" = false ->
  callHasOwnProperty (JObj sps) key = Normal (hasOwn sps key).
Proof.
  unfold callHasOwnProperty, hasOwn, Get.
  destruct (lookup "hasOwnProperty" sps); [discriminate|].
  reflexivity.
Qed.

(** What an object without own properties answers for a key. *)
Lemma Get_empty (k : string) :
  k <> "__proto__" ->
  Get (JObj []) k = JUndefined \/ Get (JObj []) k = JFun k.
Proof.
  intros Hk. unfold Get, getFromObjectPrototype; simpl lookup.
  destruct (existsb (String.eqb k) objectPrototypeFunctions); [now right|].
  destruct (String.eqb_spec k "__proto__"); [congruence | now left].
Qed.

End OwnProperties.

Section DeepMerge.

Lemma deepMerge_object_source (target : JsonValue) (sps : Props) :
  isNullish target = false ->
  typeof target = "object" ->
  isArray target = false ->
  deepMerge target (JObj sps)
  = mergeProps target (JObj sps) sps (ownProps target).
Proof.
  intros Hn Ht Ha. unfold deepMerge at 1; fold deepMerge.
  cbn [isNullish isArray typeof]. rewrite Hn, Ht, Ha. reflexivity.
Qed.

Lemma deepMerge_arrays (t s : list JsonValue) :
  deepMerge (JArr t) (JArr s) = Normal (JArr (t ++ s)).
Proof. reflexivity. Qed.

(** A value that is neither [null] nor [undefined] replaces a missing
    property. *)
Lemma deepMerge_into_missing (k : string) (v : JsonValue) :
  k <> "__proto__" ->
  isNullish v = false ->
  deepMerge (Get (JObj []) k) v = Normal v.
Proof.
  intros Hk Hv.
  destruct (Get_empty k Hk) as [-> | ->]; destruct v; try discriminate; reflexivity.
Qed.

(** A Boolean, Number or String source replaces any target. *)
Lemma deepMerge_scalar_source (t v : JsonValue) :
  isValueScalar v = true -> deepMerge t v = Normal v.
Proof.
  destruct v; try discriminate; intros _; destruct t; reflexivity.
Qed.

Lemma deepMerge_null_source (t : JsonValue) : deepMerge t JNull = Normal t.
Proof. reflexivity. Qed.

(** The loop completes when the method is not shadowed, no visited key is
    [__proto__], and the nested merges complete. *)
Lemma mergeProps_normal (target : JsonValue) (sps : Props) :
  hasOwn sps "hasOwnProperty" = false ->
  forall rest,
    Forall (fun kv => fst kv <> "__proto__"
                      /\ forall t, exists v, deepMerge t (snd kv) = Normal v) rest ->
    forall result, exists r, mergeProps target (JObj sps) rest result = Normal (JObj r).
Proof.
  intros Hshadow. induction 1 as [|[key sv] rest [Hkey Htotal] _ IH]; intros result.
  - eexists; reflexivity.
  - cbn [mergeProps fst snd] in *. rewrite callHasOwnProperty_unshadowed by assumption.
    cbn [bind]. destruct (hasOwn sps key); [|apply IH].
    destruct (Htotal (Get target key)) as [v ->]. cbn [bind].
    destruct (SetProp_normal result key v Hkey) as (r1 & -> & _). cbn [bind].
    apply IH.
Qed.

Lemma mergeSafe_keys (sps : Props) (k : string) (v : JsonValue) :
  hasOwn sps "__proto__" = false -> In (k, v) sps -> k <> "__proto__".
Proof.
  intros Hp Hin ->. apply lookup_In in Hin. congruence.
Qed.

Lemma mergeSafe_object (sps : Props) :
  mergeSafe (JObj sps) = true ->
  hasOwn sps "hasOwnProperty" = false
  /\ hasOwn sps "__proto__" = false
  /\ Forall (fun kv => mergeSafe (snd kv) = true) sps.
Proof.
  cbn [mergeSafe]. intros H.
  apply andb_true_iff in H as [H H3]. apply andb_true_iff in H as [H1 H2].
  apply negb_true_iff in H1, H2. rewrite forallb_forall in H3.
  repeat split; auto. apply Forall_forall. exact H3.
Qed.

(** On merge-safe sources the merge always completes with a value. *)
Lemma deepMerge_normal (s : JsonValue) :
  mergeSafe s = true -> forall t, exists v, deepMerge t s = Normal v.
Proof.
  induction s as [| | | | | |sps IH| |] using JsonValue_nested_ind; intros Hsafe t;
    try (destruct t; eexists; reflexivity).
  destruct (mergeSafe_object sps Hsafe) as (Hshadow & Hproto & Hvalues).
  assert (Hloop : forall target result,
             exists r, mergeProps target (JObj sps) sps result = Normal (JObj r)).
  { intros target result. apply mergeProps_normal; [assumption|].
    apply Forall_forall. intros [k v] Hin. cbn [fst snd]. split.
    - eapply mergeSafe_keys; eassumption.
    - rewrite Forall_forall in IH, Hvalues.
      apply (IH (k, v) Hin). apply (Hvalues (k, v) Hin). }
  destruct t; try (eexists; reflexivity).
  - rewrite deepMerge_object_source by reflexivity.
    destruct (Hloop (JObj props) (ownProps (JObj props))) as [r ->]. eauto.
  - rewrite deepMerge_object_source by reflexivity.
    destruct (Hloop JObjectPrototype (ownProps JObjectPrototype)) as [r ->]. eauto.
Qed.

End DeepMerge.

Section Coverage.

Lemma callHasOwnProperty_json (sps : Props) (key : string) :
  isJson (JObj sps) = true ->
  callHasOwnProperty (JObj sps) key = Normal (hasOwn sps key)
  \/ callHasOwnProperty (JObj sps) key = Throw notAFunction.
Proof.
  intros Hjson. unfold callHasOwnProperty, Get.
  destruct (lookup "hasOwnProperty" sps) as [v|] eqn:E; [|now left].
  assert (Hv : isJson v = true).
  { clear - Hjson E. cbn [isJson] in Hjson.
    induction sps as [|[k w] sps IH]; [discriminate|].
    cbn [forallb snd lookup] in *. apply andb_true_iff in Hjson as [Hw Hrest].
    destruct (k =? "hasOwnProperty"); [congruence | auto]. }
  destruct v; try discriminate; now right.
Qed.

(** The loop stays within the model when no visited key is [__proto__] and
    the nested merges do. *)
Lemma mergeProps_modelled (target : JsonValue) (sps : Props) :
  isJson (JObj sps) = true ->
  forall rest,
    Forall (fun kv => fst kv <> "__proto__"
                      /\ forall t, deepMerge t (snd kv) <> Unmodelled) rest ->
    forall result, mergeProps target (JObj sps) rest result <> Unmodelled.
Proof.
  intros Hjson. induction 1 as [|[key sv] rest [Hkey Hsv] _ IH]; intros result.
  - discriminate.
  - cbn [mergeProps fst snd] in *.
    destruct (callHasOwnProperty_json sps key Hjson) as [-> | ->];
      cbn [bind]; [|discriminate].
    destruct (hasOwn sps key); [|apply IH].
    specialize (Hsv (Get target key)).
    destruct (deepMerge (Get target key) sv) as [v|m|]; cbn [bind];
      [|discriminate|congruence].
    destruct (SetProp_normal result key v Hkey) as (r1 & -> & _). cbn [bind].
    apply IH.
Qed.

(** Documents without a key [__proto__] are merged within the model. *)
Lemma deepMerge_modelled (s : JsonValue) :
  isJson s = true -> noProtoKey s = true ->
  forall t, deepMerge t s <> Unmodelled.
Proof.
  induction s as [| | | | | |sps IH| |] using JsonValue_nested_ind;
    intros Hjson Hkeys t; try (destruct t; discriminate).
  assert (Hloop : forall target result,
             mergeProps target (JObj sps) sps result <> Unmodelled).
  { intros target result. apply mergeProps_modelled; [assumption|].
    cbn [noProtoKey] in Hkeys. apply andb_true_iff in Hkeys as [Hp Hrec].
    apply negb_true_iff in Hp. cbn [isJson] in Hjson.
    rewrite forallb_forall in Hrec, Hjson. rewrite Forall_forall in IH.
    apply Forall_forall. intros [k v] Hin. cbn [fst snd]. split.
    - eapply mergeSafe_keys; eassumption.
    - apply (IH (k, v) Hin); [apply (Hjson (k, v) Hin) | apply (Hrec (k, v) Hin)]. }
  destruct t; try discriminate.
  - rewrite deepMerge_object_source by reflexivity. apply Hloop.
  - rewrite deepMerge_object_source by reflexivity. apply Hloop.
Qed.

Lemma reduceMerge_modelled (files : list JsonFile) :
  Forall (fun f => isJson (content f) = true /\ noProtoKey (content f) = true) files ->
  forall acc, reduceMerge acc files <> Unmodelled.
Proof.
  induction 1 as [|f files [Hjson Hkeys] _ IH]; intros acc; [discriminate|].
  cbn [reduceMerge].
  pose proof (deepMerge_modelled (content f) Hjson Hkeys acc) as Hf.
  destruct (deepMerge acc (content f)); cbn [bind];
    [apply IH | discriminate | congruence].
Qed.

(** The merge of such documents always returns a result record. *)
Lemma mergeJsonFiles_modelled (files : list JsonFile) :
  Forall (fun f => isJson (content f) = true /\ noProtoKey (content f) = true) files ->
  exists result, mergeJsonFiles files = Normal result.
Proof.
  intros Hall. unfold mergeJsonFiles. destruct files as [|file0 rest]; [eauto|].
  destruct (negb _); [eauto|].
  pose proof (reduceMerge_modelled _ Hall
                (if isArray (content file0) then JArr [] else JObj [])) as Hfold.
  destruct (reduceMerge _ _); [eauto | eauto | congruence].
Qed.

(** No error escapes the merge: the [catch] turns it into a result. *)
Lemma mergeJsonFiles_never_throws (files : list JsonFile) (message : string) :
  mergeJsonFiles files <> Throw message.
Proof.
  unfold mergeJsonFiles. destruct files as [|file0 rest]; [discriminate|].
  destruct (negb _); [discriminate|].
  destruct (reduceMerge _ _); discriminate.
Qed.

End Coverage.

Section MergeByKey.

(** The loop, key by key: a visited key holds the merge of what [target]
    answers for it with the source's value; the other keys of [result] are
    untouched. *)
Lemma mergeProps_lookup (target : JsonValue) (sps : Props) :
  hasOwn sps "hasOwnProperty" = false ->
  forall rest,
    NoDup (keysOf rest) ->
    Forall (fun kv => hasOwn sps (fst kv) = true
                      /\ fst kv <> "__proto__"
                      /\ forall t, exists v, deepMerge t (snd kv) = Normal v) rest ->
    forall result,
    exists r,
      mergeProps target (JObj sps) rest result = Normal (JObj r)
      /\ forall k,
          match lookup k rest with
          | Some sv => exists v, deepMerge (Get target k) sv = Normal v
                                 /\ lookup k r = Some v
          | None => lookup k r = lookup k result
          end.
Proof.
  intros Hshadow rest Hnodup Hrest.
  induction Hrest as [|[key sv] rest (Hown & Hkey & Htotal) _ IH]; intros result.
  - exists result. split; [reflexivity|]. intros k. reflexivity.
  - cbn [fst snd] in *. cbn [keysOf map fst] in Hnodup.
    apply NoDup_cons_iff in Hnodup as [Hfresh Hnodup].
    cbn [mergeProps]. rewrite callHasOwnProperty_unshadowed by assumption.
    rewrite Hown. cbn [bind].
    destruct (Htotal (Get target key)) as [v Hv]. rewrite Hv. cbn [bind].
    destruct (SetProp_normal result key v Hkey) as (r1 & -> & Hr1). cbn [bind].
    destruct (IH Hnodup r1) as (r & Hr & Hspec).
    exists r. split; [exact Hr|]. intros k. cbn [lookup].
    specialize (Hspec k). specialize (Hr1 k).
    destruct (String.eqb_spec key k) as [Heq|Hne].
    + subst k. exists v. split; [exact Hv|].
      rewrite (lookup_not_key key rest Hfresh) in Hspec. congruence.
    + destruct (lookup k rest); [exact Hspec | congruence].
Qed.

(** One Map merged into another. *)
Lemma deepMerge_objects_by_key (tps sps : Props) :
  NoDup (keysOf sps) ->
  mergeSafe (JObj sps) = true ->
  exists r,
    deepMerge (JObj tps) (JObj sps) = Normal (JObj r)
    /\ forall k,
        mergeInto (Get (JObj tps) k) (lookup k sps) = Normal (Get (JObj r) k)
        /\ hasOwn r k = hasOwn tps k || hasOwn sps k.
Proof.
  intros Hnodup Hsafe.
  destruct (mergeSafe_object sps Hsafe) as (Hshadow & Hproto & Hvalues).
  rewrite deepMerge_object_source by reflexivity. cbn [ownProps].
  destruct (mergeProps_lookup (JObj tps) sps Hshadow sps Hnodup) with (result := tps)
    as (r & Hr & Hspec).
  { apply Forall_forall. intros [k v] Hin. cbn [fst snd]. repeat split.
    - eapply lookup_In; eassumption.
    - eapply mergeSafe_keys; eassumption.
    - apply deepMerge_normal. rewrite Forall_forall in Hvalues.
      apply (Hvalues (k, v) Hin). }
  exists r. split; [exact Hr|]. intros k. specialize (Hspec k).
  unfold hasOwn, Get, mergeInto in *.
  destruct (lookup k sps) as [sv|].
  - destruct Hspec as (v & Hv & Hk). rewrite Hk.
    split; [exact Hv | apply eq_sym, orb_true_r].
  - rewrite Hspec. split; [reflexivity | apply eq_sym, orb_false_r].
Qed.

(** The fold over Map roots, key by key. *)
Lemma reduceMerge_objects_by_key (files : list JsonFile) :
  Forall mergeableMap files ->
  forall acc,
  exists r,
    reduceMerge (JObj acc) files = Normal (JObj r)
    /\ forall k,
        mergeValues (Get (JObj acc) k) (valuesOf k files) = Normal (Get (JObj r) k)
        /\ hasOwn r k
           = hasOwn acc k
             || existsb (fun f => hasOwn (ownProps (content f)) k) files.
Proof.
  induction 1 as [|f files (ps & Hf & Hnodup & Hsafe) _ IH]; intros acc.
  - exists acc. split; [reflexivity|]. intros k. split; [reflexivity|].
    apply eq_sym, orb_false_r.
  - cbn [reduceMerge]. rewrite Hf.
    destruct (deepMerge_objects_by_key acc ps Hnodup Hsafe) as (r1 & -> & Hr1).
    cbn [bind]. destruct (IH r1) as (r & Hr & Hspec).
    exists r. split; [exact Hr|]. intros k.
    destruct (Hspec k) as [Hvals Hown]. destruct (Hr1 k) as [Hval1 Hown1].
    cbn [valuesOf flat_map existsb]. rewrite Hf. cbn [ownProps].
    fold (valuesOf k files). split.
    + unfold mergeInto in Hval1. destruct (lookup k ps) as [sv|].
      * cbn [app mergeValues]. rewrite Hval1. exact Hvals.
      * cbn [app]. replace (Get (JObj acc) k) with (Get (JObj r1) k) by congruence.
        exact Hvals.
    + rewrite Hown, Hown1. apply eq_sym, orb_assoc.
Qed.

Lemma mergeValues_app (acc : JsonValue) (vs ws : list JsonValue) :
  mergeValues acc (vs ++ ws) = bind (mergeValues acc vs) (fun a => mergeValues a ws).
Proof.
  revert acc. induction vs as [|v vs IH]; intros acc; [reflexivity|].
  cbn [app mergeValues]. destruct (deepMerge acc v); cbn [bind]; auto.
Qed.

(** A key with a value in some document is a key of that document. *)
Lemma valuesOf_nonempty (k : string) (files : list JsonFile) :
  valuesOf k files <> [] ->
  exists f, In f files /\ hasOwn (ownProps (content f)) k = true.
Proof.
  induction files as [|f files IH]; [intros H; now elim H|].
  cbn [valuesOf flat_map]. fold (valuesOf k files).
  destruct (lookup k (ownProps (content f))) eqn:E.
  - intros _. exists f. split; [now left|]. unfold hasOwn. now rewrite E.
  - cbn [app]. intros H. destruct (IH H) as (g & Hg & Hown).
    exists g. split; [now right | exact Hown].
Qed.

Lemma existsb_hasOwn (k : string) (files : list JsonFile) (f : JsonFile) :
  In f files -> hasOwn (ownProps (content f)) k = true ->
  existsb (fun f => hasOwn (ownProps (content f)) k) files = true.
Proof. intros Hin Hown. apply existsb_exists. eauto. Qed.

End MergeByKey.

Section Reduce.

(** The fold over List roots concatenates. *)
Lemma reduceMerge_arrays (files : list JsonFile) :
  Forall (fun f => exists l, content f = JArr l) files ->
  forall acc,
    reduceMerge (JArr acc) files
    = Normal (JArr (acc ++ List.concat (map (fun f => elementsOf (content f)) files))).
Proof.
  induction 1 as [|f files [l Hf] _ IH]; intros acc.
  - cbn. now rewrite app_nil_r.
  - cbn [reduceMerge map List.concat]. rewrite Hf, deepMerge_arrays.
    cbn [bind elementsOf]. rewrite IH, <- app_assoc. reflexivity.
Qed.

(** After a passed check the result is the fold from the empty seed. *)
Lemma mergeJsonFiles_valid (file0 : JsonFile) (rest : list JsonFile) :
  isValid (validateStructureConsistency (file0 :: rest)) = true ->
  mergeJsonFiles (file0 :: rest)
  = match reduceMerge (if isArray (content file0) then JArr [] else JObj [])
            (file0 :: rest) with
    | Normal value => Normal (merged value)
    | Throw message => Normal (failure (Some message))
    | Unmodelled => Unmodelled
    end.
Proof. intros H. unfold mergeJsonFiles. rewrite H. reflexivity. Qed.

(** The first loop of the merge over a Map with non-null values, every one
    of which is new to [result]. *)
Lemma mergeProps_into_empty (sps : Props) :
  hasOwn sps "hasOwnProperty" = false ->
  forall rest result : Props,
    NoDup (keysOf (result ++ rest)%list) ->
    inEnumerationOrder (result ++ rest)%list = true ->
    Forall (fun kv => hasOwn sps (fst kv) = true
                      /\ fst kv <> "__proto__"
                      /\ isNullish (snd kv) = false) rest ->
    mergeProps (JObj []) (JObj sps) rest result = Normal (JObj (result ++ rest)%list).
Proof.
  intros Hshadow rest.
  induction rest as [|[key sv] rest IH]; intros result Hnodup Horder Hrest.
  - cbn. now rewrite app_nil_r.
  - inversion Hrest as [|? ? (Hown & Hkey & Hvalue) Hrest']; subst.
    cbn [fst snd] in *. cbn [mergeProps].
    rewrite callHasOwnProperty_unshadowed by assumption. rewrite Hown. cbn [bind].
    rewrite deepMerge_into_missing by assumption. cbn [bind].
    assert (Hfresh : hasOwn result key = false).
    { unfold hasOwn. rewrite lookup_not_key; [reflexivity|].
      unfold keysOf in *. rewrite map_app in Hnodup. cbn [map fst] in Hnodup.
      apply NoDup_remove_2 in Hnodup. intros Hin. apply Hnodup.
      apply in_or_app. now left. }
    assert (Hlast : forallb (fun kv => negb (enumeratedBefore key (fst kv))) result
                    = true).
    { clear - Horder. induction result as [|[k w] result IHr]; [reflexivity|].
      cbn [app inEnumerationOrder] in Horder.
      apply andb_true_iff in Horder as [Hk Hrec].
      cbn [forallb fst]. rewrite (IHr Hrec), andb_true_r.
      rewrite forallb_app in Hk. apply andb_true_iff in Hk as [_ Hk].
      cbn [forallb fst] in Hk. apply andb_true_iff in Hk as [Hk _]. exact Hk. }
    unfold SetProp. rewrite Hfresh.
    destruct (String.eqb_spec key "__proto__") as [->|_]; [congruence|].
    cbn [bind]. rewrite (createProp_last key sv result Hlast).
    rewrite IH.
    + now rewrite <- app_assoc.
    + now rewrite <- app_assoc.
    + now rewrite <- app_assoc.
    + exact Hrest'.
Qed.

End Reduce.

(** Keys of a literal object are pairwise distinct. *)
Ltac unique_keys := repeat constructor; cbn; intuition discriminate.

Section Documents.

Lemma Get_own (ps : Props) (k : string) :
  hasOwn ps k = true -> lookup k ps = Some (Get (JObj ps) k).
Proof.
  unfold hasOwn, Get. destruct (lookup k ps); [reflexivity | discriminate].
Qed.

Lemma isJson_not_undefined (v : JsonValue) :
  isJson v = true -> v <> JNull -> isNullish v = false.
Proof. destruct v; try discriminate; try reflexivity. congruence. Qed.

End Documents.

(** A document whose key shadows [hasOwnProperty] makes the merge fail: the
    loop calls a number. *)
Example shadowed_hasOwnProperty_fails :
  mergeJsonFiles [file "a.json" (JObj [("hasOwnProperty", JNum 1)])]
  = Normal (failure (Some notAFunction)).
Proof. reflexivity. Qed.

(** A primitive under the key [__proto__] is handed to the prototype setter,
    which ignores it: the key is lost. *)
Example proto_key_is_lost :
  mergeJsonFiles [file "a.json" (JObj [("__proto__", JNum 1); ("x", JNum 2)])]
  = Normal (merged (JObj [("x", JNum 2)])).
Proof. reflexivity. Qed.

(** A null under an inherited name gives way to the inherited function. *)
Example null_under_inherited_name :
  mergeJsonFiles [file "a.json" (JObj [("toString", JNull)])]
  = Normal (merged (JObj [("toString", JFun "toString")])).
Proof. reflexivity. Qed.

(** Array indices are enumerated first, whatever the order of creation. *)
Example array_index_keys_come_first :
  mergeJsonFiles [file "a.json" (JObj [("b", JNum 1)]);
                  file "b.json" (JObj [("10", JNum 2); ("x", JNum 3)]);
                  file "c.json" (JObj [("9", JNum 4)])]
  = Normal (merged (JObj [("9", JNum 4); ("10", JNum 2); ("b", JNum 1); ("x", JNum 3)])).
Proof. reflexivity. Qed.

(** C1, as stated, fails: the key [d], null in the second document and absent
    from the first, does not come out with the value null. *)
Lemma scenario3_null_is_not_added_as_is :
  mergeJsonFiles
    [file "first.json" (JObj [("a", JArr [JNum 1; JNum 2])]);
     file "second.json" (JObj [("a", JArr [JNum 3]); ("d", JNull)])]
  <> Normal (merged (JObj [("a", JArr [JNum 1; JNum 2; JNum 3]); ("d", JNull)])).
Proof. vm_compute. discriminate. Qed.

(** C1 (amended).  For the documents {"a":[1,2]} and {"a":[3],"d":null} the
    merge succeeds with the lists under [a] concatenated and with the key [d]
    present and holding [undefined]: a null source leaves the (missing)
    target as it is. *)
Theorem scenario3_merge (f1 f2 : JsonFile) :
  content f1 = JObj [("a", JArr [JNum 1; JNum 2])] ->
  content f2 = JObj [("a", JArr [JNum 3]); ("d", JNull)] ->
  mergeJsonFiles [f1; f2]
  = Normal {| success := true;
              data := Some (JObj [("a", JArr [JNum 1; JNum 2; JNum 3]);
                                  ("d", JUndefined)]);
              mergeError := None |}.
Proof.
  intros H1 H2. rewrite mergeJsonFiles_valid.
  - cbn [reduceMerge]. rewrite H1, H2. reflexivity.
  - rewrite validate_object_roots; [reflexivity | discriminate |].
    repeat constructor; eauto.
Qed.

Lemma scenario3_merge_witness :
  mergeJsonFiles
    [file "first.json" (JObj [("a", JArr [JNum 1; JNum 2])]);
     file "second.json" (JObj [("a", JArr [JNum 3]); ("d", JNull)])]
  = Normal (merged (JObj [("a", JArr [JNum 1; JNum 2; JNum 3]); ("d", JUndefined)])).
Proof. apply scenario3_merge; reflexivity. Defined.

(** C2, as stated, fails on a Map root holding a null: the single document
    {"d":null} comes out as a Map whose key [d] holds [undefined]. *)
Lemma single_document_null_becomes_undefined :
  mergeJsonFiles [file "a.json" (JObj [("d", JNull)])]
  = Normal (merged (JObj [("d", JUndefined)]))
  /\ mergeJsonFiles [file "a.json" (JObj [("d", JNull)])]
     <> Normal (merged (content (file "a.json" (JObj [("d", JNull)])))).
Proof. split; [reflexivity | vm_compute; discriminate]. Qed.

(** C2 (amended).  A single document is merged into itself when its root is
    a List of any shape, or a Map none of whose own values is null and none
    of whose own keys is [hasOwnProperty] or [__proto__] (nulls deeper down
    are kept). *)
Theorem single_document_merge (f : JsonFile) :
  (forall l, content f = JArr l ->
             mergeJsonFiles [f] = Normal (merged (JArr l)))
  /\ (forall ps, content f = JObj ps ->
                 isJson (JObj ps) = true ->
                 NoDup (keysOf ps) ->
                 inEnumerationOrder ps = true ->
                 hasOwn ps "hasOwnProperty" = false ->
                 hasOwn ps "__proto__" = false ->
                 Forall (fun kv => snd kv <> JNull) ps ->
                 mergeJsonFiles [f] = Normal (merged (JObj ps))).
Proof.
  split.
  - intros l Hf. unfold mergeJsonFiles. cbn. rewrite Hf. reflexivity.
  - intros ps Hf Hjson Hnodup Horder Hshadow Hproto Hnonnull.
    unfold mergeJsonFiles. cbn [validateStructureConsistency valid isValid negb].
    cbn [reduceMerge]. rewrite Hf. cbn [isArray].
    rewrite deepMerge_object_source by reflexivity. cbn [ownProps].
    rewrite (mergeProps_into_empty ps Hshadow ps []); auto.
    apply Forall_forall. intros [k v] Hin. cbn [fst snd]. repeat split.
    + eapply lookup_In; eassumption.
    + eapply mergeSafe_keys; eassumption.
    + apply isJson_not_undefined.
      * cbn [isJson] in Hjson. rewrite forallb_forall in Hjson.
        apply (Hjson (k, v) Hin).
      * rewrite Forall_forall in Hnonnull. apply (Hnonnull (k, v) Hin).
Qed.

Lemma single_document_merge_witness :
  mergeJsonFiles [file "list.json" (JArr [JNull; JNum 1; JObj [("k", JNull)]])]
  = Normal (merged (JArr [JNull; JNum 1; JObj [("k", JNull)]]))
  /\ mergeJsonFiles
       [file "map.json" (JObj [("7", JStr "x"); ("b", JObj [("c", JNull)]);
                               ("toString", JArr [JNull])])]
     = Normal (merged (JObj [("7", JStr "x"); ("b", JObj [("c", JNull)]);
                             ("toString", JArr [JNull])])).
Proof.
  split.
  - apply (single_document_merge
             (file "list.json" (JArr [JNull; JNum 1; JObj [("k", JNull)]]))).
    reflexivity.
  - apply (single_document_merge
             (file "map.json" (JObj [("7", JStr "x"); ("b", JObj [("c", JNull)]);
                                     ("toString", JArr [JNull])]))).
    + reflexivity.
    + reflexivity.
    + unique_keys.
    + reflexivity.
    + reflexivity.
    + reflexivity.
    + repeat constructor; discriminate.
Defined.

(** C4, as stated, fails on nulls: in {"a":1} followed by {"a":null,"d":null}
    the later null does not replace [a], and the key [d], present in one
    document only, does not keep that document's value. *)
Lemma null_neither_replaces_nor_is_kept :
  exists props,
    mergeJsonFiles [file "a.json" (JObj [("a", JNum 1)]);
                    file "b.json" (JObj [("a", JNull); ("d", JNull)])]
    = Normal (merged (JObj props))
    /\ valuesOf "d" [file "a.json" (JObj [("a", JNum 1)]);
                     file "b.json" (JObj [("a", JNull); ("d", JNull)])] = [JNull]
    /\ lookup "d" props = Some JUndefined
    /\ lookup "d" props <> Some JNull
    /\ lookup "a" props = Some (JNum 1)
    /\ lookup "a" props <> Some JNull.
Proof.
  eexists. split; [reflexivity|]. repeat split; discriminate.
Qed.

(** C4 (amended).  For a non-empty sequence of Map-root documents with unique
    keys and no key [hasOwnProperty] or [__proto__] in any Map reached through
    Maps, the merge succeeds with a Map whose keys are exactly the keys of the
    documents; under each key lies the merge, in upload order, of the
    documents' values for it, started from what an empty object answers for
    the key.  A later Boolean, Number or String replaces what came before, a
    later null leaves it; a key of one document only keeps that document's
    value unless the value is null, and then holds what the empty object
    answers ([undefined] for a name that [Object.prototype] does not
    define). *)
Theorem map_roots_merge_by_key (files : list JsonFile) :
  files <> [] ->
  Forall mergeableMap files ->
  exists props,
    mergeJsonFiles files = Normal (merged (JObj props))
    /\ (forall k, hasOwn props k
                  = existsb (fun f => hasOwn (ownProps (content f)) k) files)
    /\ (forall k, mergeValues (Get (JObj []) k) (valuesOf k files)
                  = Normal (Get (JObj props) k))
    /\ (forall k vs v, valuesOf k files = (vs ++ [v])%list ->
                       isValueScalar v = true ->
                       lookup k props = Some v)
    /\ (forall k vs, valuesOf k files = (vs ++ [JNull])%list ->
                     mergeValues (Get (JObj []) k) vs = Normal (Get (JObj props) k))
    /\ (forall k v, valuesOf k files = [v] ->
                    isNullish v = false ->
                    lookup k props = Some v)
    /\ (forall k, valuesOf k files = [JNull] ->
                  lookup k props = Some (Get (JObj []) k)
                  /\ (existsb (String.eqb k) objectPrototypeFunctions = false ->
                      lookup k props = Some JUndefined)).
Proof.
  intros Hne Hall.
  destruct (reduceMerge_objects_by_key files Hall []) as (props & Hfold & Hkeys).
  assert (Hown : forall k, valuesOf k files <> [] ->
                           lookup k props = Some (Get (JObj props) k)
                           /\ k <> "__proto__").
  { intros k Hk. destruct (valuesOf_nonempty k files Hk) as (f & Hin & Hf).
    split.
    - apply Get_own. destruct (Hkeys k) as [_ ->].
      cbn [hasOwn lookup orb]. eapply existsb_hasOwn; eassumption.
    - rewrite Forall_forall in Hall.
      destruct (Hall f Hin) as (ps & Hc & _ & Hsafe).
      destruct (mergeSafe_object ps Hsafe) as (_ & Hproto & _).
      rewrite Hc in Hf. cbn [ownProps] in Hf. intros ->. congruence. }
  exists props. split; [|split; [|split; [|split; [|split; [|split]]]]].
  - destruct files as [|file0 rest]; [congruence|].
    rewrite mergeJsonFiles_valid.
    + inversion Hall as [|? ? (ps0 & H0 & _) _]; subst.
      rewrite H0. cbn [isArray]. rewrite Hfold. reflexivity.
    + rewrite validate_object_roots; [reflexivity | discriminate |].
      eapply Forall_impl; [|exact Hall]. intros f (ps & Hf & _). eauto.
  - intros k. destruct (Hkeys k) as [_ ->]. reflexivity.
  - intros k. apply Hkeys.
  - intros k vs v Hvs Hscalar.
    destruct (Hown k) as [-> _]; [rewrite Hvs; now destruct vs|].
    destruct (Hkeys k) as [Hval _]. rewrite Hvs, mergeValues_app in Hval.
    destruct (mergeValues (Get (JObj []) k) vs); cbn [bind mergeValues] in Hval;
      try discriminate.
    rewrite deepMerge_scalar_source in Hval by assumption. cbn [bind] in Hval.
    congruence.
  - intros k vs Hvs.
    destruct (Hkeys k) as [Hval _]. rewrite Hvs, mergeValues_app in Hval.
    destruct (mergeValues (Get (JObj []) k) vs); cbn [bind mergeValues] in Hval;
      try discriminate.
    rewrite deepMerge_null_source in Hval. exact Hval.
  - intros k v Hvs Hv.
    destruct (Hown k) as [-> Hk]; [rewrite Hvs; discriminate|].
    destruct (Hkeys k) as [Hval _]. rewrite Hvs in Hval. cbn [mergeValues] in Hval.
    rewrite deepMerge_into_missing in Hval by assumption. cbn [bind] in Hval.
    congruence.
  - intros k Hvs.
    destruct (Hown k) as [Hlook Hk]; [rewrite Hvs; discriminate|].
    destruct (Hkeys k) as [Hval _]. rewrite Hvs in Hval. cbn [mergeValues] in Hval.
    rewrite deepMerge_null_source in Hval. cbn [bind] in Hval.
    assert (Hlook' : lookup k props = Some (Get (JObj []) k)) by congruence.
    split; [exact Hlook'|]. intros Hplain. rewrite Hlook'.
    unfold Get, getFromObjectPrototype. cbn [lookup]. rewrite Hplain.
    destruct (String.eqb_spec k "__proto__"); [congruence | reflexivity].
Qed.

Lemma map_roots_merge_by_key_witness :
  exists props,
    mergeJsonFiles [file "a.json" (JObj [("a", JNum 1); ("b", JNum 2)]);
                    file "b.json" (JObj [("b", JNum 3); ("c", JNum 4)])]
    = Normal (merged (JObj props))
    /\ lookup "a" props = Some (JNum 1)
    /\ lookup "b" props = Some (JNum 3)
    /\ lookup "c" props = Some (JNum 4).
Proof.
  destruct (map_roots_merge_by_key
              [file "a.json" (JObj [("a", JNum 1); ("b", JNum 2)]);
               file "b.json" (JObj [("b", JNum 3); ("c", JNum 4)])])
    as (props & Hmerge & _ & _ & Hscalar & _ & Hsingle & _).
  - discriminate.
  - repeat constructor; eexists; (split; [reflexivity|]); (split; [|reflexivity]);
      unique_keys.
  - exists props. split; [exact Hmerge|]. repeat split.
    + apply Hsingle; reflexivity.
    + apply (Hscalar "b" [JNum 2]); reflexivity.
    + apply Hsingle; reflexivity.
Defined.

(** C5.  For a compatible sequence of List-root documents the merged value is
    the concatenation of the root lists in upload order: every element of
    every document, once, in its document's order; nothing is deduplicated or
    merged by index. *)
Theorem list_roots_concatenate (files : list JsonFile) :
  files <> [] ->
  Forall (fun f => exists l, content f = JArr l) files ->
  isValid (validateStructureConsistency files) = true ->
  mergeJsonFiles files
  = Normal {| success := true;
              data := Some (JArr (List.concat
                                    (map (fun f => elementsOf (content f)) files)));
              mergeError := None |}.
Proof.
  intros Hne Hall Hvalid.
  destruct files as [|file0 rest]; [congruence|].
  rewrite (mergeJsonFiles_valid _ _ Hvalid).
  inversion Hall as [|? ? [l0 H0] _]; subst.
  rewrite H0. cbn [isArray]. rewrite (reduceMerge_arrays _ Hall). reflexivity.
Qed.

Lemma list_roots_concatenate_witness :
  mergeJsonFiles [file "a.json" (JArr [JObj [("a", JNum 1)]; JNum 7]);
                  file "b.json" (JArr [JObj [("a", JNum 2); ("b", JNum 3)]; JNum 7]);
                  file "c.json" (JArr [])]
  = Normal (merged (JArr [JObj [("a", JNum 1)]; JNum 7;
                          JObj [("a", JNum 2); ("b", JNum 3)]; JNum 7])).
Proof.
  apply (list_roots_concatenate
           [file "a.json" (JArr [JObj [("a", JNum 1)]; JNum 7]);
            file "b.json" (JArr [JObj [("a", JNum 2); ("b", JNum 3)]; JNum 7]);
            file "c.json" (JArr [])]).
  - discriminate.
  - repeat constructor; eexists; reflexivity.
  - reflexivity.
Defined.

(** C7, as stated, fails on the empty sequence: the check gives its own
    reason, the merge another one, without running the check. *)
Lemma merge_of_no_files_has_its_own_reason :
  isValid (validateStructureConsistency []) = false
  /\ mergeError (failure (error (validateStructureConsistency [])))
     = Some "No files to validate"
  /\ mergeJsonFiles [] <> Normal (failure (error (validateStructureConsistency []))).
Proof. repeat split; try reflexivity. vm_compute. discriminate. Qed.

(** C7 (amended).  For every non-empty sequence that the check rejects, the
    merge returns a failure carrying the check's reason and no value. *)
Theorem rejected_files_are_not_merged (files : list JsonFile) :
  files <> [] ->
  isValid (validateStructureConsistency files) = false ->
  mergeJsonFiles files
  = Normal {| success := false;
              data := None;
              mergeError := error (validateStructureConsistency files) |}.
Proof.
  intros Hne Hinvalid. destruct files as [|file0 rest]; [congruence|].
  unfold mergeJsonFiles. rewrite Hinvalid. reflexivity.
Qed.

Lemma rejected_files_are_not_merged_witness :
  mergeJsonFiles [file "a.json" (JArr [JNum 1; JNum 2; JNum 3]);
                  file "b.json" (JObj [("x", JNum 1)])]
  = Normal (failure (Some (rootTypeError (file "b.json" (JObj [("x", JNum 1)]))
                                         (file "a.json" (JArr [JNum 1; JNum 2; JNum 3]))))).
Proof.
  apply (rejected_files_are_not_merged
           [file "a.json" (JArr [JNum 1; JNum 2; JNum 3]);
            file "b.json" (JObj [("x", JNum 1)])]).
  - discriminate.
  - reflexivity.
Defined.

(** C9.  The merge of no documents fails, with no value and the reason that
    there is nothing to merge. *)
Theorem merge_of_no_files :
  mergeJsonFiles []
  = Normal {| success := false;
              data := None;
              mergeError := Some "No files to merge" |}.
Proof. reflexivity. Qed.

(* ================================================================== *)
(** * Further properties of the compatibility check *)

Section CheckerVerdicts.

Lemma hash_is_truthy (v : JsonValue) :
  truthy (Some (generateCompatibleStructureHash v)) = true.
Proof. destruct v; reflexivity. Qed.

Lemma sameHash_Some (a b : string) : sameHash (Some a) (Some b) = true <-> a = b.
Proof. apply String.eqb_eq. Qed.

Lemma hash_by_kind (a b : JsonValue) :
  generateCompatibleStructureHash a = generateCompatibleStructureHash b
  <-> kindOf a = kindOf b.
Proof.
  destruct a, b; split; intros H;
    first [reflexivity | discriminate H | exfalso; vm_compute in H; discriminate H].
Qed.

Lemma arrayElementHash_list (f : JsonFile) (l : list JsonValue) :
  content f = JArr l ->
  arrayElementHash f = option_map generateCompatibleStructureHash (firstElement f).
Proof.
  intros H. unfold arrayElementHash, firstElement. rewrite H.
  destruct l; reflexivity.
Qed.

(** The test of the second loop on List roots: both lists have a first
    element, of different kinds. *)
Lemma array_test_by_kind (f file0 : JsonFile) (l l0 : list JsonValue) :
  content f = JArr l -> content file0 = JArr l0 ->
  truthy (arrayElementHash f) && truthy (arrayElementHash file0)
  && negb (sameHash (arrayElementHash f) (arrayElementHash file0)) = true
  <-> exists x x0, firstElement f = Some x /\ firstElement file0 = Some x0
                   /\ kindOf x <> kindOf x0.
Proof.
  intros Hf H0.
  rewrite (arrayElementHash_list f l Hf), (arrayElementHash_list file0 l0 H0).
  destruct (firstElement f) as [x|], (firstElement file0) as [x0|]; cbn [option_map].
  - rewrite !hash_is_truthy. cbn [andb]. rewrite negb_true_iff. split.
    + intros H. exists x, x0. repeat split. intros Hk.
      apply hash_by_kind, sameHash_Some in Hk. congruence.
    + intros (y & y0 & Hy & Hy0 & Hk). injection Hy as <-. injection Hy0 as <-.
      destruct (sameHash _ _) eqn:E; [|reflexivity].
      apply sameHash_Some, hash_by_kind in E. contradiction.
  - rewrite andb_false_r. split; [discriminate|]. intros (? & ? & _ & H & _). discriminate.
  - split; [discriminate|]. intros (? & ? & H & _). discriminate.
  - split; [discriminate|]. intros (? & ? & H & _). discriminate.
Qed.

Lemma checkArrayElements_none (file0 : JsonFile) (base : option string)
    (rest : list JsonFile) :
  checkArrayElements file0 base rest = None
  <-> Forall (fun f => truthy (arrayElementHash f) && truthy base
                       && negb (sameHash (arrayElementHash f) base) = false) rest.
Proof.
  induction rest as [|f rest IH]; cbn [checkArrayElements].
  - split; [constructor | reflexivity].
  - destruct (_ && _ && negb _) eqn:E.
    + split; [discriminate|]. intros H. inversion H; congruence.
    + rewrite IH. split; [now constructor | intros H; now inversion H].
Qed.

Lemma checkArrayElements_first (file0 : JsonFile) (base : option string) :
  forall (rest : list JsonFile) (i : nat) (f : JsonFile),
    nth_error rest i = Some f ->
    truthy (arrayElementHash f) && truthy base
    && negb (sameHash (arrayElementHash f) base) = true ->
    (forall j fj, (j < i)%nat -> nth_error rest j = Some fj ->
                  truthy (arrayElementHash fj) && truthy base
                  && negb (sameHash (arrayElementHash fj) base) = false) ->
    checkArrayElements file0 base rest = Some (invalid (arrayElementError f file0)).
Proof.
  induction rest as [|g rest IH]; intros i f Hi Hbad Hbefore.
  - destruct i; discriminate.
  - destruct i as [|i]; cbn [nth_error checkArrayElements] in *.
    + injection Hi as ->. rewrite Hbad. reflexivity.
    + rewrite (Hbefore 0%nat g) by (auto; lia).
      apply (IH i); auto.
      intros j fj Hj Hnth. apply (Hbefore (S j) fj); [lia | exact Hnth].
Qed.

Lemma checkRootTypes_none (file0 : JsonFile) (b : bool) (rest : list JsonFile) :
  checkRootTypes file0 b rest = None ->
  Forall (fun f => isArray (content f) = b) rest.
Proof.
  induction rest as [|f rest IH]; cbn [checkRootTypes]; [constructor|].
  destruct (Bool.eqb b (isArray (content f))) eqn:E; cbn [negb]; [|discriminate].
  intros H. constructor; [|auto]. apply Bool.eqb_prop in E. congruence.
Qed.

(** The verdict on List roots: file 0, then the second loop. *)
Lemma validate_list_roots (file0 : JsonFile) (rest : list JsonFile) :
  Forall (fun f => exists l, content f = JArr l) (file0 :: rest) ->
  validateStructureConsistency (file0 :: rest)
  = match checkArrayElements file0 (arrayElementHash file0) rest with
    | Some failure => failure
    | None => valid
    end.
Proof.
  intros Hall. inversion Hall as [|? ? [l0 H0] Hrest]; subst.
  destruct rest as [|file1 rest]; [reflexivity|].
  unfold validateStructureConsistency. rewrite H0. cbn [isArray].
  rewrite checkRootTypes_agree; [reflexivity|].
  eapply Forall_impl; [|exact Hrest]. intros f [l Hf]. now rewrite Hf.
Qed.

(** Every message of the check is a non-empty text. *)
Lemma validate_cases (files : list JsonFile) :
  validateStructureConsistency files = valid
  \/ exists c m, validateStructureConsistency files = invalid (String c m).
Proof.
  assert (Hroot : forall file0 b rest r,
             checkRootTypes file0 b rest = Some r -> exists c m, r = invalid (String c m)).
  { intros file0 b rest r. induction rest as [|f rest IH]; cbn; [discriminate|].
    destruct (negb _); [|exact IH]. intros H. injection H as <-.
    eexists _, _. reflexivity. }
  assert (Harr : forall file0 base rest r,
             checkArrayElements file0 base rest = Some r ->
             exists c m, r = invalid (String c m)).
  { intros file0 base rest r. induction rest as [|f rest IH]; cbn; [discriminate|].
    destruct (_ && _ && negb _); [|exact IH]. intros H. injection H as <-.
    eexists _, _. reflexivity. }
  assert (Hobj : forall file0 base rest r,
             checkObjects file0 base rest = Some r ->
             exists c m, r = invalid (String c m)).
  { intros file0 base rest r. induction rest as [|f rest IH]; cbn; [discriminate|].
    destruct (negb _); [|exact IH]. intros H. injection H as <-.
    eexists _, _. reflexivity. }
  destruct files as [|file0 [|file1 rest]].
  - right. eexists _, _. reflexivity.
  - now left.
  - unfold validateStructureConsistency.
    destruct (checkRootTypes _ _ _) as [r|] eqn:E1; [right; eauto|].
    destruct (isArray (content file0)).
    + destruct (checkArrayElements _ _ _) as [r|] eqn:E2; [right; eauto | now left].
    + destruct (checkObjects _ _ _) as [r|] eqn:E3; [right; eauto | now left].
Qed.

End CheckerVerdicts.

(** X1.  The compatible-structure hashes of two values are equal exactly when the
    values are of the same kind (List, Map, Null, Boolean, Number, String). *)
Theorem compatible_hash_separates_kinds (a b : JsonValue) :
  generateCompatibleStructureHash a = generateCompatibleStructureHash b
  <-> kindOf a = kindOf b.
Proof. apply hash_by_kind. Qed.

Lemma compatible_hash_separates_kinds_witness :
  generateCompatibleStructureHash (JObj [("a", JNum 1)])
  = generateCompatibleStructureHash (JObj [("b", JArr [JNull]); ("c", JStr "x")])
  /\ kindOf (JArr [JNum 1]) = kindOf (JArr []).
Proof.
  split.
  - apply (compatible_hash_separates_kinds (JObj [("a", JNum 1)])). reflexivity.
  - apply (compatible_hash_separates_kinds (JArr [JNum 1]) (JArr [])). reflexivity.
Defined.

(** X2.  A verdict carries a reason exactly when it fails, the reason is never
    the empty text, and no verdict of the check carries a structure hash. *)
Theorem verdict_has_reason_iff_failed (files : list JsonFile) :
  structureHash (validateStructureConsistency files) = None
  /\ (isValid (validateStructureConsistency files) = true
      <-> error (validateStructureConsistency files) = None)
  /\ (isValid (validateStructureConsistency files) = false
      <-> exists c m, error (validateStructureConsistency files) = Some (String c m)).
Proof.
  destruct (validate_cases files) as [-> | (c & m & ->)]; cbn.
  - repeat split; try discriminate; intros (? & ? & H); discriminate.
  - repeat split; try discriminate; eauto.
Qed.

Lemma verdict_has_reason_iff_failed_witness :
  exists c m,
    error (validateStructureConsistency
             [file "a.json" (JArr [JNum 1]); file "b.json" (JArr [JStr "x"])])
    = Some (String c m).
Proof.
  apply (verdict_has_reason_iff_failed
           [file "a.json" (JArr [JNum 1]); file "b.json" (JArr [JStr "x"])]).
  reflexivity.
Defined.

Lemma list_roots_valid_iff (file0 : JsonFile) (rest : list JsonFile) :
  Forall (fun f => exists l, content f = JArr l) (file0 :: rest) ->
  (isValid (validateStructureConsistency (file0 :: rest)) = true
   <-> forall x0, firstElement file0 = Some x0 ->
         forall f x, In f rest -> firstElement f = Some x ->
                     kindOf x = kindOf x0).
Proof.
  intros Hall. rewrite (validate_list_roots _ _ Hall).
  inversion Hall as [|? ? [l0 H0] Hrest]; subst.
  rewrite Forall_forall in Hrest.
  destruct (checkArrayElements _ _ _) as [r|] eqn:E.
  - assert (Hr : isValid r = false).
    { clear - E. induction rest as [|f rest IH]; cbn in E; [discriminate|].
      destruct (_ && _ && negb _); [injection E as <-; reflexivity | auto]. }
    rewrite Hr. split; [discriminate|]. intros Hkinds. exfalso.
    assert (Hnone : checkArrayElements file0 (arrayElementHash file0) rest = None).
    { apply checkArrayElements_none, Forall_forall. intros f Hin.
      destruct (Hrest f Hin) as [l Hf].
      destruct (_ && _ && negb _) eqn:Et; [|reflexivity].
      apply (array_test_by_kind f file0 l l0 Hf H0) in Et
        as (x & x0 & Hx & Hx0 & Hne).
      elim Hne. eapply Hkinds; eassumption. }
    congruence.
  - split; [|reflexivity]. intros _ x0 Hx0 f x Hin Hx.
    apply checkArrayElements_none in E. rewrite Forall_forall in E.
    specialize (E f Hin). destruct (Hrest f Hin) as [l Hf].
    destruct (kindOf_eq_dec (kindOf x) (kindOf x0)) as [Heq|Hne]; [exact Heq|].
    exfalso. apply not_true_iff_false in E. apply E.
    apply (array_test_by_kind f file0 l l0 Hf H0). eauto.
Qed.

(** X3.  For List roots the check passes exactly when, document 0's list being
    non-empty, the first element of every other non-empty list is of the
    kind of document 0's first element. *)
Theorem list_roots_validity (file0 : JsonFile) (rest : list JsonFile) :
  Forall (fun f => exists l, content f = JArr l) (file0 :: rest) ->
  (isValid (validateStructureConsistency (file0 :: rest)) = true
   <-> forall x0, firstElement file0 = Some x0 ->
         forall f x, In f rest -> firstElement f = Some x ->
                     kindOf x = kindOf x0).
Proof. apply list_roots_valid_iff. Qed.

Lemma list_roots_validity_witness :
  isValid (validateStructureConsistency
             [file "a.json" (JArr [JObj [("a", JNum 1)]]);
              file "b.json" (JArr []);
              file "c.json" (JArr [JObj []; JNum 2])]) = true.
Proof.
  apply (list_roots_validity (file "a.json" (JArr [JObj [("a", JNum 1)]]))
           [file "b.json" (JArr []); file "c.json" (JArr [JObj []; JNum 2])]).
  - repeat constructor; eexists; reflexivity.
  - intros x0 H0 f x Hin Hx. injection H0 as <-.
    destruct Hin as [<-|[<-|[]]]; [discriminate|].
    injection Hx as <-. reflexivity.
Defined.

(** X4.  For List roots whose document 0 has a first element, the check fails at
    the first document whose first element is of another kind, with the one
    reason that names that document and document 0; empty lists on the way
    are passed over. *)
Theorem array_element_mismatch_reported
    (files : list JsonFile) (file0 filei : JsonFile) (i : nat)
    (x0 x : JsonValue) :
  Forall (fun f => exists l, content f = JArr l) files ->
  nth_error files 0 = Some file0 ->
  nth_error files i = Some filei ->
  firstElement file0 = Some x0 ->
  firstElement filei = Some x ->
  kindOf x <> kindOf x0 ->
  (forall j fj y, (0 < j < i)%nat -> nth_error files j = Some fj ->
                  firstElement fj = Some y -> kindOf y = kindOf x0) ->
  validateStructureConsistency files
  = {| isValid := false;
       error := Some ("File " ++ dq ++ name filei ++ dq
                      ++ " has incompatible array element structure than "
                      ++ dq ++ name file0 ++ dq);
       structureHash := None |}.
Proof.
  intros Hall H0 Hi Hx0 Hx Hne Hbefore.
  destruct files as [|f0 rest]; [discriminate|].
  cbn in H0. injection H0 as ->.
  destruct i as [|i]; [cbn in Hi; injection Hi as ->; congruence|].
  cbn [nth_error] in Hi.
  rewrite (validate_list_roots _ _ Hall).
  inversion Hall as [|? ? [l0 Hc0] Hrest]; subst.
  rewrite Forall_forall in Hrest.
  rewrite (checkArrayElements_first file0 _ rest i filei Hi); [reflexivity| |].
  - destruct (Hrest filei (nth_error_In _ _ Hi)) as [l Hc].
    apply (array_test_by_kind filei file0 l l0 Hc Hc0). eauto.
  - intros j fj Hj Hnth.
    destruct (Hrest fj (nth_error_In _ _ Hnth)) as [l Hc].
    destruct (_ && _ && negb _) eqn:E; [|reflexivity].
    apply (array_test_by_kind fj file0 l l0 Hc Hc0) in E
      as (y & y0 & Hy & Hy0 & Hk).
    elim Hk. replace y0 with x0 by congruence.
    apply (Hbefore (S j) fj y); [lia | exact Hnth | exact Hy].
Qed.

Lemma array_element_mismatch_reported_witness :
  validateStructureConsistency
    [file "a.json" (JArr [JNum 1; JStr "x"]);
     file "b.json" (JArr []);
     file "c.json" (JArr [JNum 2]);
     file "d.json" (JArr [JNull]);
     file "e.json" (JArr [JStr "y"])]
  = invalid ("File " ++ dq ++ "d.json" ++ dq
             ++ " has incompatible array element structure than "
             ++ dq ++ "a.json" ++ dq).
Proof.
  apply (array_element_mismatch_reported _
           (file "a.json" (JArr [JNum 1; JStr "x"]))
           (file "d.json" (JArr [JNull])) 3 (JNum 1) JNull).
  - repeat constructor; eexists; reflexivity.
  - reflexivity.
  - reflexivity.
  - reflexivity.
  - reflexivity.
  - discriminate.
  - intros j fj y Hj Hnth Hy.
    assert (j = 1 \/ j = 2)%nat as [-> | ->] by lia;
      cbn in Hnth; injection Hnth as <-; [discriminate|].
    injection Hy as <-. reflexivity.
Defined.

(* ================================================================== *)
(** * Further properties of the merge *)

Section MergeOutcomes.

Lemma checkRootTypes_some (file0 : JsonFile) (b : bool) (rest : list JsonFile)
    (r : ValidationResult) :
  checkRootTypes file0 b rest = Some r -> isValid r = false.
Proof.
  induction rest as [|f rest IH]; cbn; [discriminate|].
  destruct (negb _); [|exact IH]. intros H. injection H as <-. reflexivity.
Qed.

(** A passed check means that every root agrees with document 0's on being
    an array. *)
Lemma valid_root_types (file0 : JsonFile) (rest : list JsonFile) :
  rest <> [] ->
  isValid (validateStructureConsistency (file0 :: rest)) = true ->
  Forall (fun f => isArray (content f) = isArray (content file0)) rest.
Proof.
  intros Hne Hvalid. destruct rest as [|file1 rest]; [congruence|].
  unfold validateStructureConsistency in Hvalid.
  destruct (checkRootTypes file0 _ (file1 :: rest)) as [r|] eqn:E.
  - apply checkRootTypes_some in E. congruence.
  - apply checkRootTypes_none in E. exact E.
Qed.

Lemma mergeJsonFiles_invalid (file0 : JsonFile) (rest : list JsonFile) :
  isValid (validateStructureConsistency (file0 :: rest)) = false ->
  mergeJsonFiles (file0 :: rest)
  = Normal (failure (error (validateStructureConsistency (file0 :: rest)))).
Proof. intros H. unfold mergeJsonFiles. rewrite H. reflexivity. Qed.

Lemma isArray_list (v : JsonValue) : isArray v = true -> exists l, v = JArr l.
Proof. destruct v; try discriminate. eauto. Qed.

(** The merge of List roots that passed the check. *)
Lemma merge_list_roots (file0 : JsonFile) (rest : list JsonFile) :
  Forall (fun f => exists l, content f = JArr l) (file0 :: rest) ->
  isValid (validateStructureConsistency (file0 :: rest)) = true ->
  mergeJsonFiles (file0 :: rest)
  = Normal (merged (JArr (List.concat
                            (map (fun f => elementsOf (content f)) (file0 :: rest))))).
Proof.
  intros Hall Hvalid. rewrite (mergeJsonFiles_valid _ _ Hvalid).
  inversion Hall as [|? ? [l0 H0] _]; subst.
  rewrite H0. cbn [isArray]. rewrite (reduceMerge_arrays _ Hall). reflexivity.
Qed.

Lemma mergeProps_returns_object (target source : JsonValue) :
  forall rest result v,
    mergeProps target source rest result = Normal v -> exists r, v = JObj r.
Proof.
  induction rest as [|[key sv] rest IH]; intros result v; cbn [mergeProps].
  - intros H. injection H as <-. eauto.
  - destruct (callHasOwnProperty source key) as [[|]| |]; cbn [bind];
      try discriminate; [|apply IH].
    destruct (deepMerge (Get target key) sv); cbn [bind]; try discriminate.
    destruct (SetProp result key value); cbn [bind]; try discriminate.
    apply IH.
Qed.

Lemma deepMerge_objects_returns_object (tps sps : Props) (v : JsonValue) :
  deepMerge (JObj tps) (JObj sps) = Normal v -> exists r, v = JObj r.
Proof.
  rewrite deepMerge_object_source by reflexivity. apply mergeProps_returns_object.
Qed.


Lemma callHasOwnProperty_outcomes (source : JsonValue) (key : string) (m : string) :
  callHasOwnProperty source key = Throw m -> m = notAFunction.
Proof.
  unfold callHasOwnProperty.
  destruct (Get source "hasOwnProperty"); try (intros H; injection H as <-; reflexivity).
  destruct (name0 =? "hasOwnProperty"); discriminate.
Qed.

Lemma SetProp_never_throws (result : Props) (key : string) (v : JsonValue) (m : string) :
  SetProp result key v <> Throw m.
Proof.
  unfold SetProp. destruct (hasOwn result key); [discriminate|].
  destruct (key =? "__proto__"); [destruct v|]; discriminate.
Qed.

Lemma mergeProps_throw_message (target source : JsonValue) :
  forall rest,
    Forall (fun kv => forall t m, deepMerge t (snd kv) = Throw m -> m = notAFunction)
           rest ->
    forall result m,
      mergeProps target source rest result = Throw m -> m = notAFunction.
Proof.
  induction 1 as [|[key sv] rest Hsv _ IH]; intros result m; cbn [mergeProps snd] in *.
  - discriminate.
  - destruct (callHasOwnProperty source key) as [[|]| |] eqn:Ecall; cbn [bind];
      try discriminate.
    + destruct (deepMerge (Get target key) sv) eqn:Ev; cbn [bind]; try discriminate.
      * destruct (SetProp result key value) eqn:Es; cbn [bind]; try discriminate.
        -- apply IH.
        -- now elim (SetProp_never_throws _ _ _ _ Es).
      * intros H. injection H as <-. eapply Hsv, Ev.
    + apply IH.
    + intros H. injection H as <-. eapply callHasOwnProperty_outcomes, Ecall.
Qed.

(** The only error the merge can throw is the call of a shadowed
    [hasOwnProperty]. *)
Lemma deepMerge_throw_message (s : JsonValue) :
  forall t m, deepMerge t s = Throw m -> m = notAFunction.
Proof.
  induction s as [| | | | | |sps IH| |] using JsonValue_nested_ind; intros t m;
    try (destruct t; discriminate).
  destruct t; try discriminate.
  - rewrite deepMerge_object_source by reflexivity.
    apply mergeProps_throw_message. exact IH.
  - rewrite deepMerge_object_source by reflexivity.
    apply mergeProps_throw_message. exact IH.
Qed.

Lemma callHasOwnProperty_shadowed (sps : Props) (key : string) :
  isJson (JObj sps) = true ->
  hasOwn sps "hasOwnProperty" = true ->
  callHasOwnProperty (JObj sps) key = Throw notAFunction.
Proof.
  intros Hjson Hown.
  destruct (callHasOwnProperty_json sps key Hjson) as [H|H]; [|exact H].
  exfalso. revert H. unfold callHasOwnProperty, Get, hasOwn in *.
  destruct (lookup "hasOwnProperty" sps) as [v|] eqn:E; [|discriminate].
  assert (Hv : isJson v = true).
  { clear - Hjson E. cbn [isJson] in Hjson.
    induction sps as [|[k w] sps IH]; [discriminate|].
    cbn [forallb snd lookup] in *. apply andb_true_iff in Hjson as [Hw Hrest].
    destruct (k =? "hasOwnProperty"); [congruence | auto]. }
  destruct v; discriminate.
Qed.

(** A Map with a key [hasOwnProperty] cannot be merged into any Map. *)
Lemma deepMerge_shadowed (tps sps : Props) :
  isJson (JObj sps) = true ->
  hasOwn sps "hasOwnProperty" = true ->
  deepMerge (JObj tps) (JObj sps) = Throw notAFunction.
Proof.
  intros Hjson Hown. rewrite deepMerge_object_source by reflexivity.
  destruct sps as [|[k v] sps]; [discriminate|].
  cbn [mergeProps]. rewrite callHasOwnProperty_shadowed by assumption. reflexivity.
Qed.

Lemma reduceMerge_shadowed (files : list JsonFile) :
  Forall (fun f => exists ps, content f = JObj ps
                              /\ isJson (JObj ps) = true
                              /\ noProtoKey (JObj ps) = true) files ->
  Exists (fun f => hasOwn (ownProps (content f)) "hasOwnProperty" = true) files ->
  forall acc, reduceMerge (JObj acc) files = Throw notAFunction.
Proof.
  induction 1 as [|f files (ps & Hf & Hjson & Hkeys) Hall IH]; intros Hex acc.
  - inversion Hex.
  - cbn [reduceMerge]. rewrite Hf.
    destruct (hasOwn ps "hasOwnProperty") eqn:Hown.
    + rewrite deepMerge_shadowed by assumption. reflexivity.
    + assert (Hlater : Exists (fun f => hasOwn (ownProps (content f)) "hasOwnProperty"
                                        = true) files).
      { inversion Hex as [? ? Hhead|]; subst; [|assumption].
        rewrite Hf in Hhead. cbn [ownProps] in Hhead. congruence. }
      destruct (deepMerge (JObj acc) (JObj ps)) as [v|m|] eqn:E; cbn [bind].
      * destruct (deepMerge_objects_returns_object _ _ _ E) as [r ->]. now apply IH.
      * apply deepMerge_throw_message in E. now subst.
      * now elim (deepMerge_modelled (JObj ps) Hjson Hkeys (JObj acc)).
Qed.

End MergeOutcomes.





(** X7.  Map-root documents (without a key [__proto__]) of which one has a root
    key [hasOwnProperty] are not merged: the result is a failure whose
    reason is the engine's "is not a function" message. *)
Theorem shadowed_hasOwnProperty_fails_the_merge (files : list JsonFile) :
  Forall (fun f => exists ps, content f = JObj ps
                              /\ isJson (JObj ps) = true
                              /\ noProtoKey (JObj ps) = true) files ->
  Exists (fun f => hasOwn (ownProps (content f)) "hasOwnProperty" = true) files ->
  mergeJsonFiles files
  = Normal {| success := false; data := None; mergeError := Some notAFunction |}.
Proof.
  intros Hall Hex. destruct files as [|file0 rest]; [inversion Hex|].
  rewrite mergeJsonFiles_valid.
  - inversion Hall as [|? ? (ps0 & H0 & _) _]; subst. rewrite H0. cbn [isArray].
    rewrite (reduceMerge_shadowed _ Hall Hex). reflexivity.
  - rewrite validate_object_roots; [reflexivity | discriminate |].
    eapply Forall_impl; [|exact Hall]. intros f (ps & Hf & _). eauto.
Qed.

Lemma shadowed_hasOwnProperty_fails_the_merge_witness :
  mergeJsonFiles [file "a.json" (JObj [("a", JNum 1)]);
                  file "b.json" (JObj [("b", JNum 2); ("hasOwnProperty", JBool true)]);
                  file "c.json" (JObj [("c", JNum 3)])]
  = Normal (failure (Some notAFunction)).
Proof.
  apply (shadowed_hasOwnProperty_fails_the_merge
           [file "a.json" (JObj [("a", JNum 1)]);
            file "b.json" (JObj [("b", JNum 2); ("hasOwnProperty", JBool true)]);
            file "c.json" (JObj [("c", JNum 3)])]).
  - repeat constructor; eexists; repeat split; reflexivity.
  - apply Exists_cons_tl, Exists_cons_hd. reflexivity.
Defined.

Section EmptyLists.

Lemma checkRootTypes_insert (file0 e : JsonFile) (b : bool)
    (before after : list JsonFile) :
  isArray (content e) = b ->
  checkRootTypes file0 b (before ++ e :: after)
  = checkRootTypes file0 b (before ++ after).
Proof.
  intros He. induction before as [|f before IH]; cbn [app checkRootTypes].
  - rewrite He, Bool.eqb_reflx. reflexivity.
  - destruct (negb _); [reflexivity | exact IH].
Qed.

Lemma checkArrayElements_insert (file0 e : JsonFile) (base : option string)
    (before after : list JsonFile) :
  arrayElementHash e = None ->
  checkArrayElements file0 base (before ++ e :: after)
  = checkArrayElements file0 base (before ++ after).
Proof.
  intros He. induction before as [|f before IH]; cbn [app checkArrayElements].
  - rewrite He. reflexivity.
  - destruct (_ && _ && negb _); [reflexivity | exact IH].
Qed.

(** The verdict when document 0's root is an array. *)
Lemma validate_array_base (file0 : JsonFile) (rest : list JsonFile) :
  isArray (content file0) = true ->
  validateStructureConsistency (file0 :: rest)
  = match checkRootTypes file0 true rest with
    | Some failure => failure
    | None =>
        match checkArrayElements file0 (arrayElementHash file0) rest with
        | Some failure => failure
        | None => valid
        end
    end.
Proof.
  intros Ha. destruct rest as [|file1 rest]; [reflexivity|].
  unfold validateStructureConsistency. rewrite Ha. reflexivity.
Qed.

End EmptyLists.

(** X8.  An empty List document anywhere after document 0 (itself a List) changes
    neither the verdict of the check nor the result of the merge. *)
Theorem empty_list_document_is_neutral
    (file0 e : JsonFile) (before after : list JsonFile) :
  isArray (content file0) = true ->
  content e = JArr [] ->
  validateStructureConsistency (file0 :: before ++ e :: after)
  = validateStructureConsistency (file0 :: before ++ after)
  /\ mergeJsonFiles (file0 :: before ++ e :: after)
     = mergeJsonFiles (file0 :: before ++ after).
Proof.
  intros Ha He.
  assert (Hcheck : validateStructureConsistency (file0 :: before ++ e :: after)
                   = validateStructureConsistency (file0 :: before ++ after)).
  { rewrite !validate_array_base by assumption.
    rewrite checkRootTypes_insert by (rewrite He; reflexivity).
    rewrite checkArrayElements_insert
      by (unfold arrayElementHash; rewrite He; reflexivity).
    reflexivity. }
  split; [exact Hcheck|].
  destruct (isValid (validateStructureConsistency (file0 :: before ++ after)))
    eqn:Hvalid.
  - assert (Hlists : Forall (fun f => exists l, content f = JArr l)
                            (file0 :: before ++ after)).
    { constructor; [now apply isArray_list|].
      destruct (before ++ after)%list as [|f rest] eqn:E; [constructor|].
      eapply Forall_impl; [|apply (valid_root_types file0 (f :: rest));
                             [discriminate | exact Hvalid]].
      intros g Hg. apply isArray_list. congruence. }
    assert (Hlists' : Forall (fun f => exists l, content f = JArr l)
                             (file0 :: before ++ e :: after)).
    { inversion Hlists as [|? ? H0 Hrest]; subst. constructor; [exact H0|].
      apply Forall_app in Hrest as [Hb Hafter]. apply Forall_app. split; [exact Hb|].
      constructor; [eauto | exact Hafter]. }
    rewrite (merge_list_roots _ _ Hlists Hvalid).
    rewrite (merge_list_roots _ _ Hlists') by (rewrite Hcheck; exact Hvalid).
    cbn [map List.concat]. rewrite !map_app, !concat_app. cbn [map List.concat].
    rewrite He. reflexivity.
  - rewrite !mergeJsonFiles_invalid by (rewrite ?Hcheck; exact Hvalid).
    rewrite Hcheck. reflexivity.
Qed.

Lemma empty_list_document_is_neutral_witness :
  validateStructureConsistency
    [file "a.json" (JArr [JNum 1]); file "e.json" (JArr []);
     file "b.json" (JArr [JStr "x"])]
  = validateStructureConsistency
      [file "a.json" (JArr [JNum 1]); file "b.json" (JArr [JStr "x"])]
  /\ mergeJsonFiles
       [file "a.json" (JArr [JNum 1]); file "e.json" (JArr []);
        file "b.json" (JArr [JStr "x"])]
     = mergeJsonFiles
         [file "a.json" (JArr [JNum 1]); file "b.json" (JArr [JStr "x"])].
Proof.
  apply (empty_list_document_is_neutral
           (file "a.json" (JArr [JNum 1])) (file "e.json" (JArr []))
           [] [file "b.json" (JArr [JStr "x"])]); reflexivity.
Defined.

(** X9.  Merging List roots in two batches: when document 0's list is not empty
    and the whole sequence passes the check, the merge of the first batch,
    taken as one document and merged with the remaining documents, gives the
    merge of the whole sequence. *)
Theorem list_roots_merge_in_batches
    (file0 batch : JsonFile) (first second : list JsonFile)
    (x : JsonValue) (l : list JsonValue) (v : JsonValue) :
  content file0 = JArr (x :: l) ->
  Forall (fun f => exists l, content f = JArr l) (file0 :: first ++ second) ->
  isValid (validateStructureConsistency (file0 :: first ++ second)) = true ->
  mergeJsonFiles (file0 :: first) = Normal (merged v) ->
  content batch = v ->
  mergeJsonFiles (batch :: second) = mergeJsonFiles (file0 :: first ++ second).
Proof.
  intros H0 Hall Hvalid Hfirst Hbatch.
  assert (Hkinds := proj1 (list_roots_valid_iff _ _ Hall) Hvalid x).
  assert (Hx0 : firstElement file0 = Some x) by (unfold firstElement; now rewrite H0).
  specialize (Hkinds Hx0).
  inversion Hall as [|? ? Hroot0 Hrest]; subst.
  apply Forall_app in Hrest as [Hfirsts Hseconds].
  assert (Hall1 : Forall (fun f => exists l, content f = JArr l) (file0 :: first))
    by now constructor.
  assert (Hvalid1 : isValid (validateStructureConsistency (file0 :: first)) = true).
  { apply (list_roots_valid_iff _ _ Hall1). intros y0 Hy0 f y Hin Hy.
    replace y0 with x by congruence.
    apply (Hkinds f y); [apply in_or_app; now left | exact Hy]. }
  rewrite (merge_list_roots _ _ Hall1 Hvalid1) in Hfirst.
  injection Hfirst as Hv. cbn [map List.concat] in Hv. rewrite H0 in Hv.
  cbn [elementsOf app] in Hv.
  assert (Hall2 : Forall (fun f => exists l, content f = JArr l) (batch :: second)).
  { constructor; [rewrite <- Hv; eauto | exact Hseconds]. }
  assert (Hvalid2 : isValid (validateStructureConsistency (batch :: second)) = true).
  { apply (list_roots_valid_iff _ _ Hall2). intros y0 Hy0 f y Hin Hy.
    unfold firstElement in Hy0. rewrite <- Hv in Hy0. injection Hy0 as <-.
    apply (Hkinds f y); [apply in_or_app; now right | exact Hy]. }
  rewrite (merge_list_roots _ _ Hall2 Hvalid2), (merge_list_roots _ _ Hall Hvalid).
  cbn [map List.concat]. rewrite <- Hv, H0. cbn [elementsOf].
  rewrite map_app, concat_app, app_assoc. reflexivity.
Qed.

Lemma list_roots_merge_in_batches_witness :
  mergeJsonFiles [file "ab.json" (JArr [JNum 1; JNum 2; JNum 3]);
                  file "c.json" (JArr [JNum 4])]
  = mergeJsonFiles [file "a.json" (JArr [JNum 1; JNum 2]);
                    file "b.json" (JArr [JNum 3]);
                    file "c.json" (JArr [JNum 4])].
Proof.
  apply (list_roots_merge_in_batches
           (file "a.json" (JArr [JNum 1; JNum 2]))
           (file "ab.json" (JArr [JNum 1; JNum 2; JNum 3]))
           [file "b.json" (JArr [JNum 3])] [file "c.json" (JArr [JNum 4])]
           (JNum 1) [JNum 2] (JArr [JNum 1; JNum 2; JNum 3])).
  - reflexivity.
  - repeat constructor; eexists; reflexivity.
  - reflexivity.
  - reflexivity.
  - reflexivity.
Defined.

Section KeyOrder.

Lemma keysOf_updateProp (key : string) (v : JsonValue) (ps : Props) :
  keysOf (updateProp key v ps) = keysOf ps.
Proof.
  unfold keysOf. induction ps as [|[k w] ps IH]; [reflexivity|]. cbn [updateProp].
  destruct (k =? key); cbn [map fst]; [reflexivity | now rewrite IH].
Qed.

(** A new key that is not an array index is enumerated last. *)
Lemma createProp_not_index (key : string) (v : JsonValue) (ps : Props) :
  arrayIndex key = None -> createProp key v ps = (ps ++ [(key, v)])%list.
Proof.
  intros Hkey. apply createProp_last.
  apply forallb_forall. intros kv _. unfold enumeratedBefore. now rewrite Hkey.
Qed.

Lemma SetProp_keys (result : Props) (key : string) (v : JsonValue) :
  key <> "__proto__" ->
  arrayIndex key = None ->
  exists r, SetProp result key v = Normal r
            /\ keysOf r = (keysOf result
                           ++ if hasOwn result key then [] else [key])%list
            /\ forall k, k <> key -> hasOwn r k = hasOwn result k.
Proof.
  intros Hproto Hindex.
  destruct (SetProp_normal result key v Hproto) as (r & Hr & Hlookup).
  exists r. split; [exact Hr|]. split.
  - unfold SetProp in Hr. destruct (hasOwn result key).
    + injection Hr as <-. rewrite keysOf_updateProp, app_nil_r. reflexivity.
    + destruct (String.eqb_spec key "__proto__"); [congruence|].
      injection Hr as <-. rewrite createProp_not_index by assumption.
      unfold keysOf. rewrite map_app. reflexivity.
  - intros k Hk. unfold hasOwn. rewrite Hlookup.
    destruct (String.eqb_spec key k); [congruence | reflexivity].
Qed.

(** The loop keeps the keys of [result] in place and appends the new ones in
    the order it meets them. *)
Lemma mergeProps_keys (target : JsonValue) (sps : Props) :
  hasOwn sps "hasOwnProperty" = false ->
  forall rest,
    NoDup (keysOf rest) ->
    Forall (fun kv => hasOwn sps (fst kv) = true
                      /\ fst kv <> "__proto__"
                      /\ arrayIndex (fst kv) = None
                      /\ forall t, exists v, deepMerge t (snd kv) = Normal v) rest ->
    forall result,
    exists r,
      mergeProps target (JObj sps) rest result = Normal (JObj r)
      /\ keysOf r = (keysOf result
                     ++ filter (fun k => negb (hasOwn result k)) (keysOf rest))%list.
Proof.
  intros Hshadow rest Hnodup Hrest.
  induction Hrest as [|[key sv] rest (Hown & Hkey & Hindex & Htotal) _ IH];
    intros result.
  - exists result. split; [reflexivity|]. cbn. now rewrite app_nil_r.
  - cbn [fst snd] in *. cbn [keysOf map fst] in Hnodup.
    apply NoDup_cons_iff in Hnodup as [Hfresh Hnodup].
    cbn [mergeProps]. rewrite callHasOwnProperty_unshadowed by assumption.
    rewrite Hown. cbn [bind].
    destruct (Htotal (Get target key)) as [v ->]. cbn [bind].
    destruct (SetProp_keys result key v Hkey Hindex) as (r1 & -> & Hkeys1 & Hown1).
    cbn [bind]. destruct (IH Hnodup r1) as (r & Hr & Hkeys).
    exists r. split; [exact Hr|]. rewrite Hkeys, Hkeys1.
    cbn [keysOf map fst filter].
    assert (Hfilter : filter (fun k => negb (hasOwn r1 k)) (map fst rest)
                      = filter (fun k => negb (hasOwn result k)) (map fst rest)).
    { apply filter_ext_in. intros k Hin. rewrite Hown1; [reflexivity|].
      intros ->. contradiction. }
    unfold keysOf. rewrite Hfilter.
    destruct (hasOwn result key); cbn [negb].
    + now rewrite app_nil_r.
    + now rewrite <- app_assoc.
Qed.

End KeyOrder.

(** X10.  When a Map is merged into a Map and none of the source's keys is an array
    index, the result lists the target's keys first, in their order, then the
    source's keys that the target lacks, in the source's order.  (The source
    has unique keys, none of them [hasOwnProperty] or [__proto__] in any Map
    reached through Maps.) *)
Theorem merged_keys_keep_their_order (tps sps : Props) :
  NoDup (keysOf sps) ->
  mergeSafe (JObj sps) = true ->
  Forall (fun kv => arrayIndex (fst kv) = None) sps ->
  exists r,
    deepMerge (JObj tps) (JObj sps) = Normal (JObj r)
    /\ keysOf r = (keysOf tps
                   ++ filter (fun k => negb (hasOwn tps k)) (keysOf sps))%list.
Proof.
  intros Hnodup Hsafe Hindex.
  destruct (mergeSafe_object sps Hsafe) as (Hshadow & Hproto & Hvalues).
  rewrite deepMerge_object_source by reflexivity. cbn [ownProps].
  apply mergeProps_keys; [assumption | assumption |].
  rewrite Forall_forall in *. intros [k v] Hin. cbn [fst snd]. repeat split.
  - eapply lookup_In; eassumption.
  - eapply mergeSafe_keys; eassumption.
  - apply (Hindex (k, v) Hin).
  - apply deepMerge_normal. apply (Hvalues (k, v) Hin).
Qed.

Lemma merged_keys_keep_their_order_witness :
  exists r,
    deepMerge (JObj [("b", JNum 1); ("a", JNum 2)])
              (JObj [("z", JNum 3); ("a", JNum 4); ("c", JNull)])
    = Normal (JObj r)
    /\ keysOf r = ["b"; "a"; "z"; "c"].
Proof.
  apply (merged_keys_keep_their_order
           [("b", JNum 1); ("a", JNum 2)]
           [("z", JNum 3); ("a", JNum 4); ("c", JNull)]).
  - unique_keys.
  - reflexivity.
  - repeat constructor.
Defined.

(* ================================================================== *)
(** * Properties of the strict structure hash *)

Section SortedKeys.

Lemma keyLe_trans (a b c : string) : keyLe a b -> keyLe b c -> keyLe a c.
Proof.
  unfold keyLe, String.leb. revert b c.
  induction a as [|x a IH]; intros [|y b] [|z c]; cbn [String.compare];
    try reflexivity; try discriminate.
  unfold Ascii.compare.
  destruct (N.compare_spec (N_of_ascii x) (N_of_ascii y)) as [Hxy|Hxy|Hxy];
    destruct (N.compare_spec (N_of_ascii y) (N_of_ascii z)) as [Hyz|Hyz|Hyz];
    destruct (N.compare_spec (N_of_ascii x) (N_of_ascii z)) as [Hxz|Hxz|Hxz];
    try reflexivity; try discriminate; try lia.
  apply IH.
Qed.

Lemma insertKey_perm (key : string) (l : list string) :
  Permutation (insertKey key l) (key :: l).
Proof.
  induction l as [|k l IH]; cbn [insertKey]; [reflexivity|].
  destruct (key <=? k); [reflexivity|].
  rewrite IH. apply perm_swap.
Qed.

Lemma sortKeys_perm (l : list string) : Permutation (sortKeys l) l.
Proof.
  induction l as [|k l IH]; cbn [sortKeys]; [reflexivity|].
  rewrite insertKey_perm. now constructor.
Qed.

Lemma insertKey_sorted (key : string) (l : list string) :
  StronglySorted keyLe l -> StronglySorted keyLe (insertKey key l).
Proof.
  induction 1 as [|k l Hsorted IH Hk]; cbn [insertKey].
  - repeat constructor.
  - destruct (key <=? k) eqn:E.
    + constructor; [now constructor|]. constructor; [exact E|].
      eapply Forall_impl; [|exact Hk]. intros c Hc. eapply keyLe_trans; eassumption.
    + constructor; [exact IH|].
      apply Forall_forall. intros c Hc.
      apply (Permutation_in _ (insertKey_perm key l)) in Hc.
      destruct Hc as [<-|Hc]; [|rewrite Forall_forall in Hk; now apply Hk].
      destruct (String.leb_total key k) as [H|H]; [congruence | exact H].
Qed.

Lemma sortKeys_sorted (l : list string) : StronglySorted keyLe (sortKeys l).
Proof.
  induction l as [|k l IH]; cbn [sortKeys]; [constructor|].
  now apply insertKey_sorted.
Qed.

(** A list of strings has one sorted arrangement. *)
Lemma sorted_perm_unique (l l' : list string) :
  StronglySorted keyLe l -> StronglySorted keyLe l' -> Permutation l l' -> l = l'.
Proof.
  intros Hl. revert l'. induction Hl as [|x l Hsorted IH Hx]; intros l' Hl' Hperm.
  - apply Permutation_nil in Hperm. now subst.
  - destruct Hl' as [|y l' Hsorted' Hy].
    + symmetry in Hperm. apply Permutation_nil in Hperm. discriminate.
    + assert (x = y) as <-.
      { assert (Hxin : In x (y :: l')) by (eapply Permutation_in; [exact Hperm | now left]).
        assert (Hyin : In y (x :: l))
          by (eapply Permutation_in; [symmetry; exact Hperm | now left]).
        rewrite Forall_forall in Hx, Hy.
        destruct Hxin as [->|Hxin]; [reflexivity|].
        destruct Hyin as [->|Hyin]; [reflexivity|].
        apply String.leb_antisym; [apply Hx, Hyin | apply Hy, Hxin]. }
      f_equal. apply IH; [exact Hsorted'|]. eapply Permutation_cons_inv, Hperm.
Qed.

(** Sorting forgets the order in which the keys were listed. *)
Lemma sortKeys_Permutation (l l' : list string) :
  Permutation l l' -> sortKeys l = sortKeys l'.
Proof.
  intros Hperm. apply sorted_perm_unique; try apply sortKeys_sorted.
  rewrite !sortKeys_perm. exact Hperm.
Qed.

Lemma structureAt_not_key (k : string) (ss : list (string * Structure)) :
  ~ In k (map fst ss) -> structureAt k ss = SName "undefined".
Proof.
  induction ss as [|[k' s] ss IH]; cbn [structureAt map fst]; [reflexivity|].
  intros H. destruct (String.eqb_spec k' k) as [->|_]; [elim H; now left|].
  apply IH. intros Hin. apply H. now right.
Qed.

Lemma structureAt_Permutation (k : string) (ss ss' : list (string * Structure)) :
  Permutation ss ss' -> NoDup (map fst ss) -> structureAt k ss = structureAt k ss'.
Proof.
  induction 1 as [|[k1 s1] ss ss' Hperm IH|[k1 s1] [k2 s2] ss|ss1 ss2 ss3 H12 IH12 H23 IH23];
    intros Hnodup.
  - reflexivity.
  - cbn [structureAt]. destruct (k1 =? k); [reflexivity|].
    apply IH. now inversion Hnodup.
  - cbn [structureAt].
    destruct (String.eqb_spec k2 k) as [->|_], (String.eqb_spec k1 k) as [->|_];
      try reflexivity.
    cbn [map fst] in Hnodup. inversion Hnodup as [|? ? Hfresh _]. elim Hfresh. now left.
  - rewrite IH12 by assumption. apply IH23.
    eapply Permutation_NoDup; [|exact Hnodup]. now apply Permutation_map.
Qed.

End SortedKeys.

(** X11.  The strict hash of a Map does not depend on the order in which its keys
    are listed. *)
Theorem strict_hash_ignores_key_order (ps qs : Props) :
  NoDup (keysOf ps) ->
  Permutation ps qs ->
  generateStructureHash (JObj ps) = generateStructureHash (JObj qs).
Proof.
  intros Hnodup Hperm. unfold generateStructureHash. f_equal. f_equal.
  cbn [getStructure isNull isArray typeof String.eqb Ascii.eqb Bool.eqb]. f_equal.
  rewrite (sortKeys_Permutation (keysOf ps) (keysOf qs))
    by (unfold keysOf; now apply Permutation_map).
  apply map_ext. intros key. f_equal.
  apply structureAt_Permutation.
  - now apply Permutation_map.
  - rewrite map_map. cbn [fst]. exact Hnodup.
Qed.

Lemma strict_hash_ignores_key_order_witness :
  generateStructureHash (JObj [("b", JNum 1); ("a", JArr [JStr "x"]); ("c", JNull)])
  = generateStructureHash (JObj [("c", JNull); ("b", JNum 1); ("a", JArr [JStr "x"])]).
Proof.
  apply strict_hash_ignores_key_order.
  - unique_keys.
  - apply Permutation_cons_app with (l1 := [("c", JNull)]) (l2 := [("a", JArr [JStr "x"])]).
    apply perm_swap.
Defined.

Section StringifyInjective.

Lemma append_assoc (a b c : string) : (a ++ b) ++ c = a ++ b ++ c.
Proof. induction a as [|x a IH]; cbn; [reflexivity | now rewrite IH]. Qed.

Lemma append_inv_head (a x y : string) : a ++ x = a ++ y -> x = y.
Proof. induction a as [|c a IH]; cbn; [auto|]. intros H. injection H as H. auto. Qed.

Lemma isPrefix_of_append_eq (a b x y : string) :
  a ++ x = b ++ y -> isPrefix a b = true \/ isPrefix b a = true.
Proof.
  revert b. induction a as [|c a IH]; intros [|d b]; cbn; auto.
  intros H. injection H as -> H. rewrite Ascii.eqb_refl. cbn. auto.
Qed.

Lemma In_allChars (c : ascii) : In c allChars.
Proof.
  rewrite <- (ascii_nat_embedding c). apply in_map, in_seq.
  pose proof (nat_ascii_bounded c). lia.
Qed.

Lemma escapeChar_heads : forallb escapeHeadOk allChars = true.
Proof. vm_compute. reflexivity. Qed.

Lemma escapeChar_prefixes :
  forallb (fun c => forallb (fun c' => implb (isPrefix (escapeChar c) (escapeChar c'))
                                             (Ascii.eqb c c')) allChars) allChars
  = true.
Proof. vm_compute. reflexivity. Qed.

(** No escape is a prefix of another one. *)
Lemma escapeChar_inj (c c' : ascii) (x y : string) :
  escapeChar c ++ x = escapeChar c' ++ y -> c = c'.
Proof.
  intros H. pose proof escapeChar_prefixes as Hall. rewrite forallb_forall in Hall.
  destruct (isPrefix_of_append_eq _ _ _ _ H) as [Hp|Hp].
  - specialize (Hall c (In_allChars c)). rewrite forallb_forall in Hall.
    specialize (Hall c' (In_allChars c')). rewrite Hp in Hall.
    now apply Ascii.eqb_eq.
  - specialize (Hall c' (In_allChars c')). rewrite forallb_forall in Hall.
    specialize (Hall c (In_allChars c)). rewrite Hp in Hall.
    symmetry. now apply Ascii.eqb_eq.
Qed.

Lemma escapeChar_not_quote (c : ascii) (x y : string) :
  escapeChar c ++ x <> dq ++ y.
Proof.
  pose proof escapeChar_heads as Hall. rewrite forallb_forall in Hall.
  specialize (Hall c (In_allChars c)). unfold escapeHeadOk in Hall.
  destruct (escapeChar c) as [|h t]; [discriminate|].
  cbn. intros H. injection H as -> _. discriminate.
Qed.

(** The closing quote ends the escaped text: nothing is lost. *)
Lemma escapeString_inj (s : string) :
  forall s' r r',
    escapeString s ++ dq ++ r = escapeString s' ++ dq ++ r' -> s = s' /\ r = r'.
Proof.
  induction s as [|c s IH]; intros [|c' s'] r r'; cbn [escapeString].
  - intros H. apply (append_inv_head dq) in H. auto.
  - rewrite append_assoc. intros H. symmetry in H. now apply escapeChar_not_quote in H.
  - rewrite append_assoc. intros H. now apply escapeChar_not_quote in H.
  - rewrite !append_assoc. intros H.
    pose proof (escapeChar_inj _ _ _ _ H) as <-.
    apply append_inv_head, IH in H as [-> ->]. auto.
Qed.

Lemma quoteJSONString_inj (s s' r r' : string) :
  quoteJSONString s ++ r = quoteJSONString s' ++ r' -> s = s' /\ r = r'.
Proof.
  unfold quoteJSONString. rewrite !append_assoc. intros H.
  apply append_inv_head in H. now apply escapeString_inj in H.
Qed.

End StringifyInjective.

Section StructureText.

Lemma append_nil_r (s : string) : s ++ EmptyString = s.
Proof. induction s as [|c s IH]; cbn; [reflexivity | now rewrite IH]. Qed.

Lemma joinElements_cons (e : string) (l : list string) (x : string) :
  joinElements (e :: l) ++ x
  = e ++ match l with
         | [] => x
         | _ :: _ => "," ++ joinElements l ++ x
         end.
Proof. destruct l; cbn [joinElements]; rewrite ?append_assoc; reflexivity. Qed.

Lemma stringifyStructure_object (ps : list (string * Structure)) :
  stringifyStructure (SObject ps)
  = "[" ++ quoteJSONString "object" ++ ",["
    ++ joinElements (map stringifyEntry ps) ++ "]" ++ "]".
Proof. reflexivity. Qed.

Lemma stringifyEntry_inj (k k' : string) (v v' : Structure) (t t' : string) :
  (forall b r r', stringifyStructure v ++ r = stringifyStructure b ++ r' ->
                  v = b /\ r = r') ->
  stringifyEntry (k, v) ++ t = stringifyEntry (k', v') ++ t' ->
  k = k' /\ v = v' /\ t = t'.
Proof.
  intros IH. unfold stringifyEntry. cbn [fst snd]. rewrite !append_assoc. intros H.
  apply (append_inv_head "[") in H.
  apply quoteJSONString_inj in H as [-> H].
  apply (append_inv_head ",") in H.
  apply IH in H as [-> H].
  apply (append_inv_head "]") in H. auto.
Qed.

Lemma entries_inj (ps : list (string * Structure)) :
  Forall (fun kv => forall b r r',
              stringifyStructure (snd kv) ++ r = stringifyStructure b ++ r' ->
              snd kv = b /\ r = r') ps ->
  forall ps' r r',
    joinElements (map stringifyEntry ps) ++ "]" ++ r
    = joinElements (map stringifyEntry ps') ++ "]" ++ r' ->
    ps = ps' /\ r = r'.
Proof.
  induction 1 as [|[k v] ps Hv Hps IH]; intros [|[k' v'] ps'] r r'; cbn [map snd] in *.
  - intros H. apply (append_inv_head "]") in H. auto.
  - rewrite joinElements_cons. unfold stringifyEntry. cbn [append]. discriminate.
  - rewrite joinElements_cons. unfold stringifyEntry. cbn [append]. discriminate.
  - rewrite !joinElements_cons. intros H.
    apply (stringifyEntry_inj k k' v v' _ _ Hv) in H as (-> & -> & H).
    destruct ps as [|q ps], ps' as [|q' ps']; cbn [map] in H.
    + apply (append_inv_head "]") in H. subst. auto.
    + cbn [append] in H. discriminate.
    + cbn [append] in H. discriminate.
    + apply (append_inv_head ",") in H.
      apply (IH (q' :: ps')) in H as [-> ->]. auto.
Qed.

(** The text of a structure can be read back: a structure followed by any
    text is determined by the whole. *)
Lemma stringifyStructure_inj_cont (a : Structure) :
  forall b r r',
    stringifyStructure a ++ r = stringifyStructure b ++ r' -> a = b /\ r = r'.
Proof.
  induction a as [n|e IH|ps IH] using Structure_nested_ind; intros [m|e'|ps'] r r'.
  - cbn [stringifyStructure]. intros H. apply quoteJSONString_inj in H as [-> ->]. auto.
  - cbn [stringifyStructure]. unfold quoteJSONString, dq. cbn [append]. discriminate.
  - cbn [stringifyStructure]. unfold quoteJSONString, dq. cbn [append]. discriminate.
  - cbn [stringifyStructure]. unfold quoteJSONString, dq. cbn [append]. discriminate.
  - cbn [stringifyStructure]. rewrite !append_assoc. intros H.
    apply (append_inv_head "[") in H. apply quoteJSONString_inj in H as [_ H].
    apply (append_inv_head ",") in H. apply IH in H as [-> H].
    apply (append_inv_head "]") in H. subst. auto.
  - cbn [stringifyStructure]. rewrite !append_assoc. intros H.
    apply (append_inv_head "[") in H. apply quoteJSONString_inj in H as [H _].
    discriminate.
  - cbn [stringifyStructure]. unfold quoteJSONString, dq. cbn [append]. discriminate.
  - cbn [stringifyStructure]. rewrite !append_assoc. intros H.
    apply (append_inv_head "[") in H. apply quoteJSONString_inj in H as [H _].
    discriminate.
  - rewrite !stringifyStructure_object, !append_assoc. intros H.
    apply (append_inv_head "[") in H. apply quoteJSONString_inj in H as [_ H].
    apply (append_inv_head ",[") in H.
    apply (entries_inj ps IH) in H as [-> H].
    apply (append_inv_head "]") in H. subst. auto.
Qed.

Lemma stringifyStructure_inj (a b : Structure) :
  stringifyStructure a = stringifyStructure b -> a = b.
Proof.
  intros H. apply (stringifyStructure_inj_cont a b EmptyString EmptyString).
  now rewrite !append_nil_r.
Qed.

(** The normalized structure of a value tells its kind. *)
Lemma normalized_structure_kind (x y : JsonValue) :
  normalizeStructure (getStructure x) = normalizeStructure (getStructure y) ->
  kindOf x = kindOf y.
Proof.
  destruct x, y; intros H; try reflexivity; exfalso; cbn in H; discriminate H.
Qed.

Lemma strict_hash_eq_iff (a b : JsonValue) :
  generateStructureHash a = generateStructureHash b
  <-> normalizeStructure (getStructure a) = normalizeStructure (getStructure b).
Proof.
  unfold generateStructureHash. split.
  - apply stringifyStructure_inj.
  - intros ->. reflexivity.
Qed.

End StructureText.

(** X12.  The strict hash loses nothing of the normalized structure: two values
    have the same hash exactly when their normalized structures are equal. *)
Theorem strict_hash_is_faithful (a b : JsonValue) :
  generateStructureHash a = generateStructureHash b
  <-> normalizeStructure (getStructure a) = normalizeStructure (getStructure b).
Proof. apply strict_hash_eq_iff. Qed.

Lemma strict_hash_is_faithful_witness :
  normalizeStructure (getStructure (JArr [JObj [("a", JNum 1)]; JNull]))
  = normalizeStructure (getStructure (JArr [JObj [("a", JStr "x")]])).
Proof.
  apply (strict_hash_is_faithful (JArr [JObj [("a", JNum 1)]; JNull])
                                 (JArr [JObj [("a", JStr "x")]])).
  reflexivity.
Defined.

(** X13.  Two documents with the same strict hash pass the compatibility check
    together. *)
Theorem same_strict_hash_is_compatible (fa fb : JsonFile) :
  generateStructureHash (content fa) = generateStructureHash (content fb) ->
  validateStructureConsistency [fa; fb] = valid.
Proof.
  intros H. apply strict_hash_eq_iff in H.
  pose proof (normalized_structure_kind _ _ H) as Hkind.
  assert (Hcompat : generateCompatibleStructureHash (content fb)
                    = generateCompatibleStructureHash (content fa))
    by (apply hash_by_kind; congruence).
  unfold validateStructureConsistency, checkRootTypes, checkArrayElements, checkObjects.
  assert (Harr : isArray (content fb) = isArray (content fa))
    by (destruct (content fa), (content fb); try discriminate Hkind; reflexivity).
  rewrite Harr, Bool.eqb_reflx. cbn [negb].
  destruct (isArray (content fa)) eqn:Ha.
  - destruct (isArray_list _ Ha) as [la Hla].
    assert (Hb : isArray (content fb) = true) by congruence.
    destruct (isArray_list _ Hb) as [lb Hlb].
    unfold arrayElementHash. rewrite Hla, Hlb in *.
    destruct la as [|x la], lb as [|y lb]; rewrite ?hash_is_truthy;
      try reflexivity.
    cbn in H. injection H as H. apply normalized_structure_kind in H.
    apply hash_by_kind in H. rewrite H.
    cbn [sameHash andb]. rewrite String.eqb_refl. reflexivity.
  - rewrite Hcompat, String.eqb_refl. reflexivity.
Qed.

Lemma same_strict_hash_is_compatible_witness :
  validateStructureConsistency
    [file "a.json" (JArr [JObj [("id", JNum 1); ("tags", JArr [])]]);
     file "b.json" (JArr [JObj [("tags", JArr []); ("id", JNull)]; JNum 3])]
  = valid.
Proof.
  apply (same_strict_hash_is_compatible
           (file "a.json" (JArr [JObj [("id", JNum 1); ("tags", JArr [])]]))
           (file "b.json" (JArr [JObj [("tags", JArr []); ("id", JNull)]; JNum 3]))).
  reflexivity.
Defined.

Section StrictHashOfMaps.

Lemma lookup_Some_In (k : string) (v : JsonValue) (ps : Props) :
  lookup k ps = Some v -> In (k, v) ps.
Proof.
  induction ps as [|[k' w] ps IH]; cbn [lookup]; [discriminate|].
  destruct (String.eqb_spec k' k) as [->|_].
  - intros H. injection H as ->. now left.
  - intros H. right. auto.
Qed.

Lemma lookup_key (k : string) (ps : Props) :
  In k (keysOf ps) -> exists v, lookup k ps = Some v.
Proof.
  unfold keysOf. induction ps as [|[k' w] ps IH]; cbn [map fst lookup];
    [intros []|].
  destruct (String.eqb_spec k' k) as [->|Hne]; [eauto|].
  intros [H|H]; [congruence | auto].
Qed.

Lemma lookup_None_iff (k : string) (ps : Props) :
  lookup k ps = None <-> ~ In k (keysOf ps).
Proof.
  split.
  - intros H Hin. destruct (lookup_key k ps Hin) as [v Hv]. congruence.
  - apply lookup_not_key.
Qed.

Lemma structureAt_getStructure (key : string) (ps : Props) :
  structureAt key (map (fun kv => (fst kv, getStructure (snd kv))) ps)
  = match lookup key ps with
    | Some v => getStructure v
    | None => SName "undefined"
    end.
Proof.
  induction ps as [|[k w] ps IH]; cbn [map structureAt lookup fst snd]; [reflexivity|].
  destruct (k =? key); [reflexivity | exact IH].
Qed.

(** What normalization leaves of the property of a Map. *)
Lemma normalized_field (key : string) (v : JsonValue) :
  isJson v = true ->
  (let normalized := normalizeStructure (getStructure v) in
   if isNameOf ["nullable"] normalized then (key, SName "nullable-field")
   else if isObjectStructure normalized then (key, SName "nullable-field")
   else if isNameOf ["string"; "number"; "boolean"] normalized then
     (key, SName "nullable-field")
   else (key, normalized))
  = (key, fieldStructure v).
Proof. destruct v; try discriminate; intros _; reflexivity. Qed.

(** The normalized structure of a Map: its sorted keys, each with the
    structure of its value if that is an array, and with the same mark
    otherwise. *)
Lemma normalized_map (ps : Props) :
  isJson (JObj ps) = true ->
  normalizeStructure (getStructure (JObj ps))
  = SObject (map (fun key => (key, fieldStructureAt key ps)) (sortKeys (keysOf ps))).
Proof.
  intros Hjson.
  cbn [getStructure isNull isArray typeof String.eqb Ascii.eqb Bool.eqb
       normalizeStructure].
  f_equal. rewrite map_map. apply map_ext_in. intros key Hin. cbn [fst snd].
  rewrite structureAt_getStructure. unfold fieldStructureAt.
  apply (Permutation_in _ (sortKeys_perm (keysOf ps))) in Hin.
  destruct (lookup_key key ps Hin) as [v Hv]. rewrite Hv.
  apply normalized_field.
  cbn [isJson] in Hjson. rewrite forallb_forall in Hjson.
  apply (Hjson (key, v)). now apply lookup_Some_In.
Qed.

End StrictHashOfMaps.

(** X14.  Two Maps have the same strict hash exactly when they have the same keys
    and, under each key, values that are both not arrays, or arrays of equal
    normalized structure: of a value that is not an array (null, a scalar, a
    nested Map) the hash keeps nothing but the key. *)
Theorem strict_hash_of_maps (ps qs : Props) :
  isJson (JObj ps) = true ->
  isJson (JObj qs) = true ->
  NoDup (keysOf ps) ->
  NoDup (keysOf qs) ->
  (generateStructureHash (JObj ps) = generateStructureHash (JObj qs)
   <-> forall k, option_map fieldStructure (lookup k ps)
                 = option_map fieldStructure (lookup k qs)).
Proof.
  intros Hp Hq Hnp Hnq.
  rewrite strict_hash_eq_iff, (normalized_map ps Hp), (normalized_map qs Hq).
  split.
  - intros H. injection H as H.
    assert (Hkeys : sortKeys (keysOf ps) = sortKeys (keysOf qs)).
    { apply (f_equal (map fst)) in H. rewrite !map_map in H. cbn [fst] in H.
      now rewrite !map_id in H. }
    rewrite <- Hkeys in H.
    assert (Hfields := proj1 map_ext_in_iff H).
    assert (Hsame : forall k, In k (keysOf ps) <-> In k (keysOf qs)).
    { intros k. split; intros Hin.
      - apply (Permutation_in _ (sortKeys_perm (keysOf qs))). rewrite <- Hkeys.
        apply (Permutation_in _ (Permutation_sym (sortKeys_perm (keysOf ps)))), Hin.
      - apply (Permutation_in _ (sortKeys_perm (keysOf ps))). rewrite Hkeys.
        apply (Permutation_in _ (Permutation_sym (sortKeys_perm (keysOf qs)))), Hin. }
    intros k. destruct (in_dec string_dec k (keysOf ps)) as [Hin|Hout].
    + assert (Hf : (k, fieldStructureAt k ps) = (k, fieldStructureAt k qs)).
      { apply Hfields.
        apply (Permutation_in _ (Permutation_sym (sortKeys_perm (keysOf ps)))), Hin. }
      injection Hf as Hf. unfold fieldStructureAt in Hf.
      destruct (lookup_key k ps Hin) as [v Hv].
      destruct (lookup_key k qs (proj1 (Hsame k) Hin)) as [w Hw].
      rewrite Hv, Hw in *. cbn [option_map]. now f_equal.
    + rewrite (proj2 (lookup_None_iff k ps) Hout).
      rewrite (proj2 (lookup_None_iff k qs)); [reflexivity|].
      intros Hin. apply Hout, Hsame, Hin.
  - intros Hfields.
    assert (Hsame : forall k, In k (keysOf ps) <-> In k (keysOf qs)).
    { intros k. specialize (Hfields k). split; intros Hin.
      - destruct (lookup_key k ps Hin) as [v Hv]. rewrite Hv in Hfields.
        destruct (lookup k qs) eqn:E; [|discriminate].
        apply lookup_Some_In in E. apply (in_map fst) in E. exact E.
      - destruct (lookup_key k qs Hin) as [v Hv]. rewrite Hv in Hfields.
        destruct (lookup k ps) eqn:E; [|discriminate].
        apply lookup_Some_In in E. apply (in_map fst) in E. exact E. }
    rewrite (sortKeys_Permutation (keysOf ps) (keysOf qs))
      by now apply NoDup_Permutation.
    f_equal. apply map_ext. intros k. f_equal. unfold fieldStructureAt.
    specialize (Hfields k).
    destruct (lookup k ps), (lookup k qs); cbn [option_map] in Hfields;
      congruence.
Qed.

Lemma strict_hash_of_maps_witness :
  generateStructureHash
    (JObj [("id", JNum 1); ("avatar", JNull); ("tags", JArr [JStr "x"; JNum 2])])
  = generateStructureHash
      (JObj [("tags", JArr [JStr "y"]); ("avatar", JObj [("url", JStr "u")]);
             ("id", JStr "7")]).
Proof.
  apply strict_hash_of_maps.
  - reflexivity.
  - reflexivity.
  - unique_keys.
  - unique_keys.
  - intros k. cbn [lookup].
    destruct (String.eqb_spec "id" k) as [<-|_]; [reflexivity|].
    destruct (String.eqb_spec "avatar" k) as [<-|_]; [reflexivity|].
    destruct (String.eqb_spec "tags" k) as [<-|_]; [reflexivity|].
    reflexivity.
Defined.

(* ================================================================== *)
(** * Properties of the loader and of the merger component *)

Section LoaderProperties.

Variable JSON_parse : string -> ParseOutcome.

Lemma root_test_by_kind (v : JsonValue) :
  negb (typeof v =? "object") || isNull v = false
  <-> kindOf v = KList \/ kindOf v = KMap.
Proof.
  destruct v; cbn; split; intros H; auto; try discriminate;
    destruct H; discriminate.
Qed.

(** X15.  A text is accepted exactly when it parses to a List or a Map; it then
    comes with the strict hash of the parsed value and no error.  A text that
    parses to null or to a scalar is rejected with the root-level message,
    and a text that does not parse with the parser's own message. *)
Theorem validateJsonString_accepts_lists_and_maps (jsonString : string) :
  (isValid (validateJsonString JSON_parse jsonString) = true
   <-> exists v, JSON_parse jsonString = Parsed v
                 /\ (kindOf v = KList \/ kindOf v = KMap))
  /\ (forall v, JSON_parse jsonString = Parsed v ->
                kindOf v = KList \/ kindOf v = KMap ->
                validateJsonString JSON_parse jsonString
                = {| isValid := true;
                     error := None;
                     structureHash := Some (generateStructureHash v) |})
  /\ (forall v, JSON_parse jsonString = Parsed v ->
                ~ (kindOf v = KList \/ kindOf v = KMap) ->
                validateJsonString JSON_parse jsonString
                = {| isValid := false;
                     error := Some "JSON must be an object or array at root level";
                     structureHash := None |})
  /\ (forall m, JSON_parse jsonString = SyntaxError m ->
                validateJsonString JSON_parse jsonString
                = {| isValid := false; error := Some m; structureHash := None |}).
Proof.
  unfold validateJsonString.
  destruct (JSON_parse jsonString) as [v|m].
  - pose proof (root_test_by_kind v) as Hroot.
    destruct (negb (typeof v =? "object") || isNull v).
    + assert (Hnot : ~ (kindOf v = KList \/ kindOf v = KMap))
        by (intros H; apply Hroot in H; discriminate).
      repeat split; try discriminate.
      * intros (w & Hw & Hk). injection Hw as <-. contradiction.
      * intros w Hw Hk. injection Hw as <-. contradiction.
    + assert (Hyes : kindOf v = KList \/ kindOf v = KMap) by now apply Hroot.
      repeat split; try discriminate; eauto.
      * intros w Hw _. injection Hw as <-. reflexivity.
      * intros w Hw Hk. injection Hw as <-. contradiction.
  - repeat split; try discriminate.
    + intros (w & Hw & _). discriminate.
    + intros m' Hm. injection Hm as <-. reflexivity.
Qed.

End LoaderProperties.

Lemma validateJsonString_accepts_lists_and_maps_witness :
  validateJsonString
    (fun text => if text =? "[null]" then Parsed (JArr [JNull])
                 else if text =? "7" then Parsed (JNum 7)
                 else SyntaxError "Unexpected end of JSON input")
    "[null]"
  = {| isValid := true;
       error := None;
       structureHash := Some (generateStructureHash (JArr [JNull])) |}.
Proof.
  apply (validateJsonString_accepts_lists_and_maps
           (fun text => if text =? "[null]" then Parsed (JArr [JNull])
                        else if text =? "7" then Parsed (JNum 7)
                        else SyntaxError "Unexpected end of JSON input")
           "[null]").
  - reflexivity.
  - left. reflexivity.
Defined.

Section MergerComponent.

Lemma orElse_reason (c : ascii) (m fallback : string) :
  orElse (Some (String c m)) fallback = String c m.
Proof. reflexivity. Qed.

End MergerComponent.

(** X16.  The merger component tells its parent nothing while no file is uploaded,
    and otherwise exactly the result of [mergeJsonFiles] on the uploaded
    files: the failure it builds itself for rejected files is the one the
    merge returns. *)
Theorem merger_reports_the_merge (files : list JsonFile) :
  mergerNotification [] = Normal None
  /\ (files <> [] ->
      mergerNotification files
      = bind (mergeJsonFiles files) (fun result => Normal (Some result))).
Proof.
  split; [reflexivity|]. intros Hne.
  destruct files as [|file0 rest]; [congruence|].
  unfold mergerNotification, mergerMergeResult, mergerStructureValidation.
  cbn [List.length Nat.eqb Nat.ltb Nat.leb orb andb].
  destruct (isValid (validateStructureConsistency (file0 :: rest))) eqn:Hvalid;
    cbn [negb orb andb bind].
  - destruct (mergeJsonFiles (file0 :: rest)); reflexivity.
  - rewrite (mergeJsonFiles_invalid _ _ Hvalid). cbn [bind].
    destruct (validate_cases (file0 :: rest)) as [E | (c & m & E)];
      rewrite E in *; [discriminate|].
    cbn [error invalid]. rewrite orElse_reason. reflexivity.
Qed.

Lemma merger_reports_the_merge_witness :
  mergerNotification [file "a.json" (JArr [JNum 1]); file "b.json" (JObj [])]
  = bind (mergeJsonFiles [file "a.json" (JArr [JNum 1]); file "b.json" (JObj [])])
         (fun result => Normal (Some result)).
Proof.
  apply (merger_reports_the_merge
           [file "a.json" (JArr [JNum 1]); file "b.json" (JObj [])]).
  discriminate.
Defined.

(* ================================================================== *)
(** * Empty Maps and lists under a key *)

Section MapFolds.



(** Lists merged one after the other into a list. *)
Lemma mergeValues_lists (acc : list JsonValue) (ls : list (list JsonValue)) :
  mergeValues (JArr acc) (map JArr ls) = Normal (JArr (acc ++ List.concat ls)).
Proof.
  revert acc. induction ls as [|l ls IH]; intros acc; cbn [map mergeValues List.concat].
  - now rewrite app_nil_r.
  - rewrite deepMerge_arrays. cbn [bind]. rewrite IH, app_assoc. reflexivity.
Qed.

End MapFolds.



(** X18.  When every document that has the key holds a List under it, the merged
    Map holds under that key the concatenation of those Lists in upload
    order.  (Map roots with unique keys, no key [hasOwnProperty] or
    [__proto__] in a Map reached through Maps.) *)
Theorem lists_under_a_key_are_concatenated
    (files : list JsonFile) (k : string)
    (l : list JsonValue) (ls : list (list JsonValue)) :
  Forall mergeableMap files ->
  valuesOf k files = map JArr (l :: ls) ->
  exists props,
    mergeJsonFiles files = Normal (merged (JObj props))
    /\ lookup k props = Some (JArr (List.concat (l :: ls))).
Proof.
  intros Hall Hvalues.
  assert (Hne : valuesOf k files <> []) by (rewrite Hvalues; discriminate).
  destruct (valuesOf_nonempty k files Hne) as (f & Hin & Hf).
  assert (Hk : k <> "__proto__").
  { rewrite Forall_forall in Hall.
    destruct (Hall f Hin) as (ps & Hc & _ & Hsafe).
    destruct (mergeSafe_object ps Hsafe) as (_ & Hproto & _).
    rewrite Hc in Hf. cbn [ownProps] in Hf. intros ->. congruence. }
  destruct (reduceMerge_objects_by_key files Hall []) as (props & Hfold & Hkeys).
  exists props. split.
  - destruct files as [|file0 rest]; [destruct Hin|].
    rewrite mergeJsonFiles_valid.
    + inversion Hall as [|? ? (ps0 & H0 & _) _]; subst.
      rewrite H0. cbn [isArray]. rewrite Hfold. reflexivity.
    + rewrite validate_object_roots; [reflexivity | discriminate |].
      eapply Forall_impl; [|exact Hall]. intros g (ps & Hg & _). eauto.
  - destruct (Hkeys k) as [Hval Hown].
    rewrite Get_own.
    + f_equal. rewrite Hvalues in Hval. cbn [map mergeValues] in Hval.
      rewrite deepMerge_into_missing in Hval by (assumption || reflexivity).
      cbn [bind] in Hval. rewrite mergeValues_lists in Hval.
      cbn [List.concat]. congruence.
    + rewrite Hown. cbn [hasOwn lookup orb]. eapply existsb_hasOwn; eassumption.
Qed.

Lemma lists_under_a_key_are_concatenated_witness :
  exists props,
    mergeJsonFiles [file "a.json" (JObj [("tags", JArr [JStr "x"]); ("n", JNum 1)]);
                    file "b.json" (JObj [("n", JNum 2)]);
                    file "c.json" (JObj [("tags", JArr [JStr "y"; JStr "x"])])]
    = Normal (merged (JObj props))
    /\ lookup "tags" props = Some (JArr [JStr "x"; JStr "y"; JStr "x"]).
Proof.
  apply (lists_under_a_key_are_concatenated
           [file "a.json" (JObj [("tags", JArr [JStr "x"]); ("n", JNum 1)]);
            file "b.json" (JObj [("n", JNum 2)]);
            file "c.json" (JObj [("tags", JArr [JStr "y"; JStr "x"])])]
           "tags" [JStr "x"] [[JStr "y"; JStr "x"]]).
  - repeat constructor; eexists; (split; [reflexivity|]); (split; [|reflexivity]);
      unique_keys.
  - reflexivity.
Defined.
